(** * Verification of the deployment script [scrap.py]

    The script packages a handler file, creates or updates a managed
    function, grants the storage service permission to invoke it and
    registers an object-creation trigger on a bucket.  Every step is a
    sequence of calls on a provider client, so the embedding below is a
    state-and-exception monad over an abstract provider: a run takes a world,
    and gives back a result (a value or a raised exception), the world after
    the run and the list of events the run produced, in order. *)

From Stdlib Require Import String Ascii List ZArith Bool Lia.
From Stdlib Require Import Strings.Byte.
Import ListNotations.
Open Scope string_scope.
Open Scope list_scope.

Set Warnings "-register-all".

(** ** Python values *)

(** The values the script handles: [None], booleans, integers, [str],
    [bytes], lists and dictionaries with string keys.  A dictionary keeps its
    insertion order, so it is an association list (with distinct keys). *)
Inductive pyval : Type :=
| PNone
| PBool (b : bool)
| PInt (n : Z)
| PStr (s : string)
| PBytes (b : list byte)
| PList (l : list pyval)
| PDict (d : list (string * pyval)).

Definition dict : Type := list (string * pyval).

(** [d.get(k)], as an option. *)
Fixpoint dict_get (k : string) (d : dict) : option pyval :=
  match d with
  | [] => None
  | (k', v) :: d' => if String.eqb k k' then Some v else dict_get k d'
  end.

(** [d[k] = v]: the value of an existing key is replaced in place, a new key
    goes to the end. *)
Fixpoint dict_set (k : string) (v : pyval) (d : dict) : dict :=
  match d with
  | [] => [(k, v)]
  | (k', v') :: d' =>
      if String.eqb k k' then (k, v) :: d' else (k', v') :: dict_set k v d'
  end.

(** Truth value of a [str] and of a dictionary: non-empty. *)
Definition str_truthy (s : string) : bool :=
  match s with
  | EmptyString => false
  | String _ _ => true
  end.

(** Truth value of an argument that is [None] or a [str]. *)
Definition opt_truthy (o : option string) : bool :=
  match o with
  | None => false
  | Some s => str_truthy s
  end.

Definition dict_truthy (d : dict) : bool :=
  match d with
  | [] => false
  | _ :: _ => true
  end.

Definition list_truthy (l : list pyval) : bool :=
  match l with
  | [] => false
  | _ :: _ => true
  end.

Fixpoint bytes_eqb (x y : list byte) : bool :=
  match x, y with
  | [], [] => true
  | a :: x', b :: y' => Byte.eqb a b && bytes_eqb x' y'
  | _, _ => false
  end.

(** Python's [==] on these values.  [bool] is a subclass of [int], so
    [True == 1]; lists compare element by element; dictionaries compare as
    maps, whatever their insertion order. *)
Fixpoint py_eqb (a b : pyval) {struct a} : bool :=
  match a, b with
  | PNone, PNone => true
  | PBool x, PBool y => Bool.eqb x y
  | PBool x, PInt n => Z.eqb (if x then 1 else 0) n
  | PInt n, PBool x => Z.eqb n (if x then 1 else 0)
  | PInt n, PInt m => Z.eqb n m
  | PStr s, PStr t => String.eqb s t
  | PBytes x, PBytes y => bytes_eqb x y
  | PList l, PList m =>
      (fix elems (l m : list pyval) {struct l} : bool :=
         match l, m with
         | [], [] => true
         | x :: l', y :: m' => py_eqb x y && elems l' m'
         | _, _ => false
         end) l m
  | PDict d, PDict e =>
      Nat.eqb (length d) (length e) &&
      (fix items (d : dict) {struct d} : bool :=
         match d with
         | [] => true
         | (k, v) :: d' =>
             match dict_get k e with
             | Some v' => py_eqb v v'
             | None => false
             end && items d'
         end) d
  | _, _ => false
  end.

(** ** Exceptions *)

(** [ClientError code] is botocore's [ClientError] whose
    [response["Error"]["Code"]] is [code].  [OtherError] stands for what the
    libraries raise besides (connection failures, [OSError], ...). *)
Inductive exn : Type :=
| ClientError (code : string)
| KeyError (key : string)
| TypeError
| AttributeError
| SystemExit (status : Z)
| OtherError (name : string).

(** [d[k]]. *)
Definition py_getitem (k : string) (d : dict) : exn + pyval :=
  match dict_get k d with
  | Some v => inr v
  | None => inl (KeyError k)
  end.

(** [c.get(k)] on any value: only a dictionary has the method. *)
Definition py_get (k : string) (c : pyval) : exn + pyval :=
  match c with
  | PDict d =>
      inr match dict_get k d with
          | Some v => v
          | None => PNone
          end
  | _ => inl AttributeError
  end.

Definition char_str (c : ascii) : pyval := PStr (String c EmptyString).

(** What a [for] clause iterates over: the elements of a list, the keys of a
    dictionary, the characters of a [str], the integers of a [bytes]. *)
Definition py_iter (v : pyval) : exn + list pyval :=
  match v with
  | PList l => inr l
  | PDict d => inr (map (fun kv => PStr (fst kv)) d)
  | PStr s => inr (map char_str (list_ascii_of_string s))
  | PBytes b => inr (map (fun x => PInt (Z.of_N (Byte.to_N x))) b)
  | PNone | PBool _ | PInt _ => inl TypeError
  end.

(** ** The provider and the events of a run *)

(** One call of a client method: the client ([s3] or [lambda]), the method
    and the keyword arguments in the order the call writes them. *)
Record api_call : Type := ApiCall {
  service : string;
  operation : string;
  kwargs : dict
}.

Inductive event : Type :=
| EApi (c : api_call)
| ESession (region : string)
| EClient (svc : string)
| EZip (file_path arcname : string)
| EPrint (stream : string) (args : list pyval).

(** What the script runs against: the provider's answer to a call (a
    response dictionary or an exception) with the state it leaves,
    [os.path.exists], the archive [zipfile] builds from a file, and the
    construction of a session for a region and of a client of a session.
    A construction calls no client method, so it raises no [ClientError]:
    it returns ([None] below) or raises an exception of botocore's
    ([ProfileNotFound], [NoRegionError], [InvalidRegionError], ...), of
    which the answer gives the name. *)
Class Platform (W : Type) : Type := {
  invoke : api_call -> W -> (exn + dict) * W;
  path_exists : string -> W -> bool;
  zip_archive : string -> string -> W -> exn + list byte;
  open_session : string -> W -> option string;
  create_client : string -> string -> W -> option string
}.

(** ** The monad of runs *)

Record outcome (W A : Type) : Type := Outcome {
  result : exn + A;
  world : W;
  trace : list event
}.

Arguments Outcome {W A} _ _ _.
Arguments result {W A} _.
Arguments world {W A} _.
Arguments trace {W A} _.

Definition M (W A : Type) : Type := W -> outcome W A.

Definition ret {W A} (a : A) : M W A := fun w => Outcome (inr a) w [].

Definition raise {W A} (e : exn) : M W A := fun w => Outcome (inl e) w [].

Definition bind {W A B} (m : M W A) (k : A -> M W B) : M W B :=
  fun w =>
    let o := m w in
    match result o with
    | inl e => Outcome (inl e) (world o) (trace o)
    | inr a =>
        let o' := k a (world o) in
        Outcome (result o') (world o') (trace o ++ trace o')
    end.

Definition lift {W A} (r : exn + A) : M W A := fun w => Outcome r w [].

Definition emit {W} (ev : event) : M W unit := fun w => Outcome (inr tt) w [ev].

(** Reading the world: no event, no change. *)
Definition ask {W A} (f : W -> A) : M W A := fun w => Outcome (inr (f w)) w [].

(** [try: body / except botocore.exceptions.ClientError as e: handler]: the
    handler receives the error code of [e]; any other exception passes. *)
Definition except_ClientError {W A} (body : M W A) (handler : string -> M W A)
  : M W A :=
  fun w =>
    let o := body w in
    match result o with
    | inl (ClientError code) =>
        let o' := handler code (world o) in
        Outcome (result o') (world o') (trace o ++ trace o')
    | _ => o
    end.

Declare Scope run_scope.
Delimit Scope run_scope with run.
Notation "x <- c1 ;; c2" := (bind c1 (fun x => c2))
  (at level 61, c1 at next level, right associativity) : run_scope.
Notation "c1 ;; c2" := (bind c1 (fun _ => c2))
  (at level 61, right associativity) : run_scope.
Open Scope run_scope.

(** A client method call: the provider answers, the call is recorded. *)
Definition call {W} `{Platform W} (c : api_call) : M W dict :=
  fun w => let (r, w') := invoke c w in Outcome r w' [EApi c].

(** [print] of the given arguments, to [sys.stdout] or, with [file=], to
    [sys.stderr]. *)
Definition print {W} (stream : string) (args : list pyval) : M W unit :=
  emit (EPrint stream args).

(** A construction: the event is recorded, and the run goes on or raises
    the exception named. *)
Definition construct {W} (ev : event) (failure : option string) : M W unit :=
  fun w =>
    Outcome
      match failure with
      | None => inr tt
      | Some name => inl (OtherError name)
      end w [ev].

(** [boto3.Session(region_name=...)] and [session.client(...)] of a session
    for that region. *)
Definition boto3_Session {W} `{Platform W} (region_name : string) : M W unit :=
  fun w => construct (ESession region_name) (open_session region_name w) w.

Definition session_client {W} `{Platform W} (region_name service_name : string)
  : M W unit :=
  fun w =>
    construct (EClient service_name)
      (create_client region_name service_name w) w.

(** ** The script *)

Section Script.

Context {W : Type} `{Platform W}.

(** [zip_bytes(file_path, arcname)], lines 11-15: the archive that holds the
    file under the entry name [arcname]. *)
Definition zip_bytes (file_path : string) (arcname : string) : M W (list byte) :=
  emit (EZip file_path arcname) ;;
  archive <- ask (zip_archive file_path arcname) ;;
  lift archive.

(** [{"Variables": env} if env else {}], lines 33 and 48. *)
Definition environment (env : dict) : pyval :=
  if dict_truthy env then PDict [("Variables", PDict env)] else PDict [].

(** [upsert_lambda], lines 17-50.  [lambda_client] is the provider's
    [lambda] client; [region] is not used by the body. *)
Definition upsert_lambda (function_name role_arn : string)
    (zip_bytes : list byte) (region : string) (env : dict) : M W pyval :=
  except_ClientError
    (resp <- call (ApiCall "lambda" "update_function_code"
                     [("FunctionName", PStr function_name);
                      ("ZipFile", PBytes zip_bytes);
                      ("Publish", PBool true)]) ;;
     call (ApiCall "lambda" "update_function_configuration"
             [("FunctionName", PStr function_name);
              ("Handler", PStr "lambda_function.lambda_handler");
              ("Runtime", PStr "python3.12");
              ("Role", PStr role_arn);
              ("Timeout", PInt 30);
              ("MemorySize", PInt 256);
              ("Environment", environment env)]) ;;
     lift (py_getitem "FunctionArn" resp))
    (fun code =>
       if negb (String.eqb code "ResourceNotFoundException")
       then raise (ClientError code)
       else
         resp <- call (ApiCall "lambda" "create_function"
                         [("FunctionName", PStr function_name);
                          ("Runtime", PStr "python3.12");
                          ("Role", PStr role_arn);
                          ("Handler", PStr "lambda_function.lambda_handler");
                          ("Code", PDict [("ZipFile", PBytes zip_bytes)]);
                          ("Timeout", PInt 30);
                          ("MemorySize", PInt 256);
                          ("Publish", PBool true);
                          ("Environment", environment env)]) ;;
         lift (py_getitem "FunctionArn" resp)).

(** [add_invoke_permission], lines 52-66; the default of [statement_id] is
    ["AllowS3Invoke"]. *)
Definition add_invoke_permission (function_name bucket_arn : string)
    (statement_id : string) : M W pyval :=
  except_ClientError
    (call (ApiCall "lambda" "add_permission"
             [("FunctionName", PStr function_name);
              ("StatementId", PStr statement_id);
              ("Action", PStr "lambda:InvokeFunction");
              ("Principal", PStr "s3.amazonaws.com");
              ("SourceArn", PStr bucket_arn)]) ;;
     ret PNone)
    (fun code =>
       if String.eqb code "ResourceConflictException"
       then ret PNone
       else raise (ClientError code)).

(** The rule [configure_s3_notification] builds, lines 72-83: the [filters]
    list, then [lambda_config] with its [Filter] key set only when [filters]
    is not empty. *)
Definition notification_filters (prefix suffix : option string) : list pyval :=
  let filters := [] in
  let filters :=
    match prefix with
    | Some p =>
        if str_truthy p
        then filters ++ [PDict [("Name", PStr "prefix"); ("Value", PStr p)]]
        else filters
    | None => filters
    end in
  let filters :=
    match suffix with
    | Some s =>
        if str_truthy s
        then filters ++ [PDict [("Name", PStr "suffix"); ("Value", PStr s)]]
        else filters
    | None => filters
    end in
  filters.

Definition lambda_config (lambda_arn : pyval) (prefix suffix : option string)
  : dict :=
  let filters := notification_filters prefix suffix in
  let lambda_config :=
    [("LambdaFunctionArn", lambda_arn);
     ("Events", PList [PStr "s3:ObjectCreated:*"])] in
  if list_truthy filters
  then dict_set "Filter" (PDict [("Key", PDict [("FilterRules", PList filters)])])
         lambda_config
  else lambda_config.

(** [[c for c in existing if c.get("LambdaFunctionArn") != lambda_arn]],
    line 88, on the elements [existing] iterates over. *)
Fixpoint other_targets (lambda_arn : pyval) (existing : list pyval)
  : exn + list pyval :=
  match existing with
  | [] => inr []
  | c :: rest =>
      match py_get "LambdaFunctionArn" c with
      | inl e => inl e
      | inr target =>
          match other_targets lambda_arn rest with
          | inl e => inl e
          | inr kept =>
              inr (if negb (py_eqb target lambda_arn) then c :: kept else kept)
          end
      end
  end.

(** [configure_s3_notification], lines 68-94.  [s3_client] is the provider's
    [s3] client. *)
Definition configure_s3_notification (bucket : string) (lambda_arn : pyval)
    (prefix suffix : option string) : M W pyval :=
  cfg <- call (ApiCall "s3" "get_bucket_notification_configuration"
                 [("Bucket", PStr bucket)]) ;;
  let lambda_config := lambda_config lambda_arn prefix suffix in
  let existing :=
    match dict_get "LambdaFunctionConfigurations" cfg with
    | Some v => v
    | None => PList []
    end in
  elements <- lift (py_iter existing) ;;
  existing <- lift (other_targets lambda_arn elements) ;;
  let existing := existing ++ [PDict lambda_config] in
  call (ApiCall "s3" "put_bucket_notification_configuration"
          [("Bucket", PStr bucket);
           ("NotificationConfiguration",
            PDict [("LambdaFunctionConfigurations", PList existing)])]) ;;
  ret PNone.

(** The command line after [parser.parse_args()], lines 97-107. *)
Record arguments : Type := Arguments_ {
  args_bucket : string;
  args_function : string;
  args_role_arn : string;
  args_region : string;
  args_prefix : option string;
  args_suffix : option string;
  args_sns_topic_arn : option string;
  args_slack_webhook_url : option string;
  args_file : string
}.

(** The [env] dictionary of [main], lines 119-123. *)
Definition main_env (args : arguments) : dict :=
  let env := [] in
  let env :=
    match args_sns_topic_arn args with
    | Some v => if str_truthy v then dict_set "SNS_TOPIC_ARN" (PStr v) env else env
    | None => env
    end in
  let env :=
    match args_slack_webhook_url args with
    | Some v =>
        if str_truthy v then dict_set "SLACK_WEBHOOK_URL" (PStr v) env else env
    | None => env
    end in
  env.

(** [main], lines 96-133, from the parsed arguments on: a run that ends in
    [parser.parse_args()] is before what is modelled here.  The session and
    the two clients are constructed before the file is looked for, and each
    construction may raise. *)
Definition main (args : arguments) : M W pyval :=
  boto3_Session (args_region args) ;;
  session_client (args_region args) "s3" ;;
  session_client (args_region args) "lambda" ;;
  present <- ask (path_exists (args_file args)) ;;
  if negb present
  then
    print "stderr" [PStr ("Missing " ++ args_file args)] ;;
    raise (SystemExit 1)
  else
    code_zip <- zip_bytes (args_file args) "lambda_function.py" ;;
    let env := main_env args in
    lambda_arn <- upsert_lambda (args_function args) (args_role_arn args)
                    code_zip (args_region args) env ;;
    add_invoke_permission (args_function args)
      ("arn:aws:s3:::" ++ args_bucket args) "AllowS3Invoke" ;;
    configure_s3_notification (args_bucket args) lambda_arn
      (args_prefix args) (args_suffix args) ;;
    print "stdout" [PStr "Done."] ;;
    print "stdout" [PStr "Lambda ARN:"; lambda_arn] ;;
    print "stdout"
      [PStr ("S3 bucket '" ++ args_bucket args ++ "' now triggers '"
             ++ args_function args ++ "' on ObjectCreated events.")] ;;
    ret PNone.

(** The status the interpreter exits with when the script is [main()]:
    [0] after a normal return, the argument of [sys.exit], and [1] after any
    other uncaught exception. *)
Definition exit_status (o : outcome W pyval) : Z :=
  match result o with
  | inr _ => 0
  | inl (SystemExit status) => status
  | inl _ => 1
  end.



(** Whether the session and the two clients of [main] get constructed. *)
Definition created (args : arguments) (w : W) : bool :=
  match open_session (args_region args) w,
        create_client (args_region args) "s3" w,
        create_client (args_region args) "lambda" w with
  | None, None, None => true
  | _, _, _ => false
  end.

End Script.

(** ** The requests of the script, by name *)

Definition update_function_code_request (function_name : string)
    (zip : list byte) : api_call :=
  ApiCall "lambda" "update_function_code"
    [("FunctionName", PStr function_name);
     ("ZipFile", PBytes zip);
     ("Publish", PBool true)].

Definition update_function_configuration_request (function_name role_arn : string)
    (env : dict) : api_call :=
  ApiCall "lambda" "update_function_configuration"
    [("FunctionName", PStr function_name);
     ("Handler", PStr "lambda_function.lambda_handler");
     ("Runtime", PStr "python3.12");
     ("Role", PStr role_arn);
     ("Timeout", PInt 30);
     ("MemorySize", PInt 256);
     ("Environment", environment env)].

Definition create_function_request (function_name role_arn : string)
    (zip : list byte) (env : dict) : api_call :=
  ApiCall "lambda" "create_function"
    [("FunctionName", PStr function_name);
     ("Runtime", PStr "python3.12");
     ("Role", PStr role_arn);
     ("Handler", PStr "lambda_function.lambda_handler");
     ("Code", PDict [("ZipFile", PBytes zip)]);
     ("Timeout", PInt 30);
     ("MemorySize", PInt 256);
     ("Publish", PBool true);
     ("Environment", environment env)].

Definition add_permission_request (function_name statement_id bucket_arn : string)
  : api_call :=
  ApiCall "lambda" "add_permission"
    [("FunctionName", PStr function_name);
     ("StatementId", PStr statement_id);
     ("Action", PStr "lambda:InvokeFunction");
     ("Principal", PStr "s3.amazonaws.com");
     ("SourceArn", PStr bucket_arn)].

Definition get_notification_request (bucket : string) : api_call :=
  ApiCall "s3" "get_bucket_notification_configuration" [("Bucket", PStr bucket)].

Definition put_notification_request (bucket : string) (configuration : dict)
  : api_call :=
  ApiCall "s3" "put_bucket_notification_configuration"
    [("Bucket", PStr bucket); ("NotificationConfiguration", PDict configuration)].

(** The function reference a response carries: [resp["FunctionArn"]], or the
    exception the call raised. *)
Definition function_arn (answer : exn + dict) : exn + pyval :=
  match answer with
  | inl e => inl e
  | inr resp => py_getitem "FunctionArn" resp
  end.

(** Whether a run called the client method [op]. *)
Definition is_call (op : string) (ev : event) : bool :=
  match ev with
  | EApi c => String.eqb (operation c) op
  | _ => false
  end.

Definition called (op : string) (t : list event) : bool := existsb (is_call op) t.




(** Whether a rule of a notification configuration targets the function
    [arn], and how many rules of a list do. *)
Definition targets (arn : string) (rule : pyval) : bool :=
  match rule with
  | PDict d =>
      match dict_get "LambdaFunctionArn" d with
      | Some (PStr a) => String.eqb a arn
      | _ => false
      end
  | _ => false
  end.


(** An answer of the provider that [add_invoke_permission] takes for a
    success: a response, or the conflict error. *)
Definition granted (answer : exn + dict) : bool :=
  match answer with
  | inr _ => true
  | inl (ClientError code) => String.eqb code "ResourceConflictException"
  | inl _ => false
  end.

(** [cfg.get("LambdaFunctionConfigurations", [])]. *)
Definition existing_rules (cfg : dict) : pyval :=
  match dict_get "LambdaFunctionConfigurations" cfg with
  | Some v => v
  | None => PList []
  end.

(** The filter rule a prefix or suffix argument contributes: one rule named
    [name] when the argument is a non-empty [str], none when it is [None] or
    the empty [str]. *)
Definition filter_rule (name : string) (o : option string) : list pyval :=
  match o with
  | Some (String a s) =>
      [PDict [("Name", PStr name); ("Value", PStr (String a s))]]
  | _ => []
  end.

(** Whether an optional argument was given at all. *)
Definition given (o : option string) : bool :=
  match o with
  | Some _ => true
  | None => false
  end.

(** Whether a filter rule named [name] is among the rules of
    [rule["Filter"]["Key"]["FilterRules"]]. *)
Definition names_filter (name : string) (r : pyval) : bool :=
  match r with
  | PDict d =>
      match dict_get "Name" d with
      | Some (PStr n) => String.eqb n name
      | _ => false
      end
  | _ => false
  end.

Definition has_filter_rule (name : string) (rule : dict) : bool :=
  match dict_get "Filter" rule with
  | Some (PDict f) =>
      match dict_get "Key" f with
      | Some (PDict k) =>
          match dict_get "FilterRules" k with
          | Some (PList rules) => existsb (names_filter name) rules
          | _ => false
          end
      | _ => false
      end
  | _ => false
  end.

(** ** Two platforms to run the script on *)

(** A provider that answers from a script: each call takes the next answer. *)
Module Scripted.

Record world : Type := World {
  answers : list (exn + dict);
  files : list string
}.

Definition respond (c : api_call) (w : world) : (exn + dict) * world :=
  match answers w with
  | [] => (inl (OtherError "EndOfScript"), w)
  | a :: rest => (a, World rest (files w))
  end.

Definition has_file (p : string) (w : world) : bool :=
  existsb (String.eqb p) (files w).

#[global] Instance platform : Platform world := {|
  invoke := respond;
  path_exists := has_file;
  zip_archive := fun p _ w =>
    if has_file p w then inr [x50; x4b] else inl (OtherError "FileNotFoundError");
  open_session := fun _ _ => None;
  create_client := fun _ _ _ => None
|}.

End Scripted.

(** A provider with a store: the functions that exist, the permission
    statements of each, and the notification configuration of each bucket. *)
Module Cloud.

Record world : Type := World {
  functions : list string;
  statements : list (string * string);
  notifications : list (string * dict);
  files : list string
}.

Definition str_arg (k : string) (c : api_call) : string :=
  match dict_get k (kwargs c) with
  | Some (PStr s) => s
  | _ => ""
  end.

Definition has_function (w : world) (name : string) : bool :=
  existsb (String.eqb name) (functions w).

Definition has_statement (w : world) (name sid : string) : bool :=
  existsb (fun s => String.eqb name (fst s) && String.eqb sid (snd s))
    (statements w).

Fixpoint stored (bucket : string) (l : list (string * dict)) : option dict :=
  match l with
  | [] => None
  | (b, cfg) :: l' => if String.eqb bucket b then Some cfg else stored bucket l'
  end.

Fixpoint store (bucket : string) (cfg : dict) (l : list (string * dict))
  : list (string * dict) :=
  match l with
  | [] => [(bucket, cfg)]
  | (b, c) :: l' =>
      if String.eqb bucket b then (b, cfg) :: l' else (b, c) :: store bucket cfg l'
  end.

Definition arn_of (name : string) : dict :=
  [("FunctionArn", PStr ("arn:aws:lambda:::function:" ++ name))].

Definition not_found : exn := ClientError "ResourceNotFoundException".

Definition respond (c : api_call) (w : world) : (exn + dict) * world :=
  let name := str_arg "FunctionName" c in
  let bucket := str_arg "Bucket" c in
  let op := operation c in
  if String.eqb op "update_function_code"
     || String.eqb op "update_function_configuration"
  then (if has_function w name then inr (arn_of name) else inl not_found, w)
  else if String.eqb op "create_function"
  then
    if has_function w name
    then (inl (ClientError "ResourceConflictException"), w)
    else (inr (arn_of name),
          World (name :: functions w) (statements w) (notifications w) (files w))
  else if String.eqb op "add_permission"
  then
    let sid := str_arg "StatementId" c in
    if negb (has_function w name) then (inl not_found, w)
    else if has_statement w name sid
    then (inl (ClientError "ResourceConflictException"), w)
    else (inr [("Statement", PStr sid)],
          World (functions w) ((name, sid) :: statements w) (notifications w)
            (files w))
  else if String.eqb op "get_bucket_notification_configuration"
  then
    match stored bucket (notifications w) with
    | Some cfg => (inr cfg, w)
    | None => (inl (ClientError "NoSuchBucket"), w)
    end
  else if String.eqb op "put_bucket_notification_configuration"
  then
    match stored bucket (notifications w),
          dict_get "NotificationConfiguration" (kwargs c) with
    | Some _, Some (PDict cfg) =>
        (inr [], World (functions w) (statements w)
                   (store bucket cfg (notifications w)) (files w))
    | _, _ => (inl (ClientError "NoSuchBucket"), w)
    end
  else (inl (OtherError "UnknownOperation"), w).

Definition has_file (p : string) (w : world) : bool :=
  existsb (String.eqb p) (files w).

(** A region name with a space in it is no region name: no client is made
    for it. *)
Definition refuses (region : string) : option string :=
  if existsb (Ascii.eqb " "%char) (list_ascii_of_string region)
  then Some "InvalidRegionError"
  else None.

#[global] Instance platform : Platform world := {|
  invoke := respond;
  path_exists := has_file;
  zip_archive := fun p _ w =>
    if has_file p w then inr [x50; x4b] else inl (OtherError "FileNotFoundError");
  open_session := fun _ _ => None;
  create_client := fun region _ _ => refuses region
|}.

End Cloud.

(** A machine where the handler file exists and cannot be read, in front of
    the provider with a store. *)
Module Locked.

Record world : Type := World { cloud : Cloud.world }.

Definition respond (c : api_call) (w : world) : (exn + dict) * world :=
  let (r, w') := Cloud.respond c (cloud w) in (r, World w').

#[global] Instance platform : Platform world := {|
  invoke := respond;
  path_exists := fun _ _ => true;
  zip_archive := fun _ _ _ => inl (OtherError "PermissionError");
  open_session := fun _ _ => None;
  create_client := fun _ _ _ => None
|}.

End Locked.

(** ** Worlds the statements below are run on *)

Definition not_found : exn := ClientError "ResourceNotFoundException".

Definition arn_f : dict := [("FunctionArn", PStr "arn:aws:lambda:::function:f")].

(** The function is absent: the code update is refused, the creation answers. *)
Definition absent_function : Scripted.world :=
  Scripted.World [inl not_found; inr arn_f] [].

(** The function goes away between the two update calls. *)
Definition vanishing_function : Scripted.world :=
  Scripted.World [inr arn_f; inl not_found; inr arn_f] [].

(** The code update is refused for a reason other than absence. *)
Definition throttled : Scripted.world :=
  Scripted.World [inl (ClientError "TooManyRequestsException"); inr arn_f] [].

(** A provider where the function [f] exists and no permission was granted. *)
Definition deployed : Cloud.world := Cloud.World ["f"] [] [("b", [])] [].

Definition arn_of_f : pyval := PStr "arn:aws:lambda:::function:f".

Definition topic_rule : pyval :=
  PDict [("TopicArn", PStr "arn:aws:sns:::t");
         ("Events", PList [PStr "s3:ObjectRemoved:*"])].

(** A bucket that notifies a topic and has no function rule. *)
Definition bucket_with_topic : Cloud.world :=
  Cloud.World ["f"] [] [("b", [("TopicConfigurations", PList [topic_rule])])] [].

Definition rule_for (arn : string) (events : string) : pyval :=
  PDict [("Id", PStr "old"); ("LambdaFunctionArn", PStr arn);
         ("Events", PList [PStr events])].

(** A bucket with two rules for the function [f] and one for [g]. *)
Definition bucket_with_rules : Cloud.world :=
  Cloud.World ["f"; "g"] []
    [("b", [("LambdaFunctionConfigurations",
             PList [rule_for "arn:aws:lambda:::function:f" "s3:ObjectCreated:Put";
                    rule_for "arn:aws:lambda:::function:g" "s3:ObjectRemoved:*";
                    rule_for "arn:aws:lambda:::function:f" "s3:ObjectCreated:*"])])]
    [].

(** A command line with the required flags only. *)
Definition plain_arguments : arguments :=
  Arguments_ "b" "f" "role" "us-east-1" None None None None "lambda_function.py".

(** The same with a region name that is none. *)
Definition misspelt_region : arguments :=
  Arguments_ "b" "f" "role" "us east 1" None None None None "lambda_function.py".

(** A provider where the function exists, and a machine with the handler
    file. *)
Definition ready : Cloud.world :=
  Cloud.World ["f"] [] [("b", [])] ["lambda_function.py"].

(** ** The events of [main], by name *)

(** What [main] does before the first provider call: the session, the two
    clients and the packaging of the handler file under its fixed entry
    name. *)
Definition prelude (args : arguments) : list event :=
  [ESession (args_region args); EClient "s3"; EClient "lambda";
   EZip (args_file args) "lambda_function.py"].

(** The three lines [main] prints after the last step. *)
Definition summary (args : arguments) (lambda_arn : pyval) : list event :=
  [EPrint "stdout" [PStr "Done."];
   EPrint "stdout" [PStr "Lambda ARN:"; lambda_arn];
   EPrint "stdout"
     [PStr ("S3 bucket '" ++ args_bucket args ++ "' now triggers '"
            ++ args_function args ++ "' on ObjectCreated events.")]].

(** The permission request of [main]: the storage service may invoke the
    function for events of the bucket of the command line. *)
Definition main_permission_request (args : arguments) : api_call :=
  add_permission_request (args_function args) "AllowS3Invoke"
    ("arn:aws:s3:::" ++ args_bucket args).

(** The entries the two pass-through options contribute to [env]. *)
Definition env_entry (name : string) (o : option string) : dict :=
  match o with
  | Some (String a s) => [(name, PStr (String a s))]
  | _ => []
  end.

(** The settings [upsert_lambda] gives a function, whichever call sets
    them. *)
Definition setting_keys : list string :=
  ["FunctionName"; "Handler"; "Runtime"; "Role"; "Timeout"; "MemorySize";
   "Environment"].

(** A command line with both pass-through options and both filters. *)
Definition full_arguments : arguments :=
  Arguments_ "b" "f" "role" "us-east-1" (Some "in/") (Some ".csv")
    (Some "arn:aws:sns:::t") (Some "https://hooks.example/x")
    "lambda_function.py".

(** A machine with the handler file and a provider where the bucket exists
    and the function does not. *)
Definition fresh : Cloud.world :=
  Cloud.World [] [] [("b", [])] ["lambda_function.py"].

(** The same without the bucket. *)
Definition no_bucket : Cloud.world :=
  Cloud.World ["f"] [] [] ["lambda_function.py"].

(** The handler file is there and the provider refuses the code update. *)
Definition denied : Scripted.world :=
  Scripted.World [inl (ClientError "AccessDeniedException")]
    ["lambda_function.py"].

(** The handler file is there and cannot be read. *)
Definition locked : Locked.world := Locked.World fresh.

(** The provider answers both update calls, the first without a function
    reference. *)
Definition silent_update : Scripted.world := Scripted.World [inr []; inr arn_f] [].

(** ** Runs of the building blocks *)

Section Runs.

Context {W : Type} `{Platform W}.

Lemma call_run (c : api_call) (w : W) :
  call c w = Outcome (fst (invoke c w)) (snd (invoke c w)) [EApi c].
Proof. unfold call. destruct (invoke c w); reflexivity. Qed.

Lemma not_found_code (code : string) :
  ClientError code <> ClientError "ResourceNotFoundException" ->
  String.eqb code "ResourceNotFoundException" = false.
Proof.
  intros Hne. apply String.eqb_neq. intros ->. apply Hne. reflexivity.
Qed.

(** The update path of [upsert_lambda] when the first call raises. *)
Lemma upsert_code_raises (fn role : string) (zip : list byte) (region : string)
    (env : dict) (w w1 : W) (e : exn) :
  invoke (update_function_code_request fn zip) w = (inl e, w1) ->
  upsert_lambda fn role zip region env w =
  match e with
  | ClientError code =>
      if String.eqb code "ResourceNotFoundException"
      then
        let a := invoke (create_function_request fn role zip env) w1 in
        Outcome (function_arn (fst a)) (snd a)
          [EApi (update_function_code_request fn zip);
           EApi (create_function_request fn role zip env)]
      else Outcome (inl e) w1 [EApi (update_function_code_request fn zip)]
  | _ => Outcome (inl e) w1 [EApi (update_function_code_request fn zip)]
  end.
Proof.
  intros H1. unfold update_function_code_request in H1.
  unfold upsert_lambda, except_ClientError, bind.
  rewrite call_run, H1. cbn.
  destruct e; try reflexivity.
  destruct (String.eqb code "ResourceNotFoundException"); cbn; [ | reflexivity ].
  rewrite call_run. unfold create_function_request.
  destruct (invoke _ w1) as [[e' | resp] w2]; reflexivity.
Qed.

(** The update path when the first call answers and the second raises. *)
Lemma upsert_configuration_raises (fn role : string) (zip : list byte)
    (region : string) (env : dict) (w w1 w2 : W) (resp : dict) (e : exn) :
  invoke (update_function_code_request fn zip) w = (inr resp, w1) ->
  invoke (update_function_configuration_request fn role env) w1 = (inl e, w2) ->
  upsert_lambda fn role zip region env w =
  match e with
  | ClientError code =>
      if String.eqb code "ResourceNotFoundException"
      then
        let a := invoke (create_function_request fn role zip env) w2 in
        Outcome (function_arn (fst a)) (snd a)
          [EApi (update_function_code_request fn zip);
           EApi (update_function_configuration_request fn role env);
           EApi (create_function_request fn role zip env)]
      else Outcome (inl e) w2
             [EApi (update_function_code_request fn zip);
              EApi (update_function_configuration_request fn role env)]
  | _ => Outcome (inl e) w2
           [EApi (update_function_code_request fn zip);
            EApi (update_function_configuration_request fn role env)]
  end.
Proof.
  intros H1 H2.
  unfold update_function_code_request in H1.
  unfold update_function_configuration_request in H2.
  unfold upsert_lambda, except_ClientError, bind.
  rewrite call_run, H1. cbn.
  rewrite call_run, H2. cbn.
  destruct e; try reflexivity.
  destruct (String.eqb code "ResourceNotFoundException"); cbn; [ | reflexivity ].
  rewrite call_run. unfold create_function_request.
  destruct (invoke _ w2) as [[e' | resp'] w3]; reflexivity.
Qed.

(** The update path when both calls answer. *)
Lemma upsert_updates (fn role : string) (zip : list byte) (region : string)
    (env : dict) (w w1 w2 : W) (resp resp' : dict) :
  invoke (update_function_code_request fn zip) w = (inr resp, w1) ->
  invoke (update_function_configuration_request fn role env) w1 = (inr resp', w2) ->
  upsert_lambda fn role zip region env w =
  Outcome (py_getitem "FunctionArn" resp) w2
    [EApi (update_function_code_request fn zip);
     EApi (update_function_configuration_request fn role env)].
Proof.
  intros H1 H2.
  unfold update_function_code_request in H1.
  unfold update_function_configuration_request in H2.
  unfold upsert_lambda, except_ClientError, bind.
  rewrite call_run, H1. cbn.
  rewrite call_run, H2. cbn.
  unfold py_getitem.
  destruct (dict_get "FunctionArn" resp); reflexivity.
Qed.

End Runs.

(** ** The function upserter *)

Section Upsert.

Context {W : Type} `{Platform W}.

Variables (fn role : string) (zip : list byte) (region : string) (env : dict).

Let code := update_function_code_request fn zip.
Let conf := update_function_configuration_request fn role env.
Let create := create_function_request fn role zip env.

(** The calls a run of [upsert_lambda] makes, in order. *)
Lemma upsert_trace_cases (w : W) :
  let t := trace (upsert_lambda fn role zip region env w) in
  t = [EApi code] \/ t = [EApi code; EApi conf] \/
  t = [EApi code; EApi create] \/ t = [EApi code; EApi conf; EApi create].
Proof.
  cbn zeta.
  destruct (invoke code w) as [[e | resp] w1] eqn:H1.
  - rewrite (upsert_code_raises _ _ _ _ _ _ _ _ H1).
    destruct e as [c | | | | | ]; auto.
    destruct (String.eqb c "ResourceNotFoundException"); cbn; auto.
  - destruct (invoke conf w1) as [[e | resp'] w2] eqn:H2.
    + rewrite (upsert_configuration_raises _ _ _ _ _ _ _ _ _ _ H1 H2).
      destruct e as [c | | | | | ]; auto.
      destruct (String.eqb c "ResourceNotFoundException"); cbn; auto 6.
    + rewrite (upsert_updates _ _ _ _ _ _ _ _ _ _ H1 H2). auto.
Qed.

(** C3: [upsert_lambda] calls [create_function] exactly when the update path
    raised a [ClientError] whose code is ["ResourceNotFoundException"]; any
    other exception of the update path, and any exception of
    [create_function], is the exception of the run; and a run that returns
    gives back [resp["FunctionArn"]] of the code update (update path) or of
    the creation (create path). *)
Theorem upsert_lambda_fallback (w : W) :
  let o := upsert_lambda fn role zip region env w in
  let a1 := invoke code w in
  let a2 := invoke conf (snd a1) in
  (called "create_function" (trace o) = true <->
   (fst a1 = inl not_found \/
    exists resp, fst a1 = inr resp /\ fst a2 = inl not_found)) /\
  (forall e, fst a1 = inl e -> e <> not_found ->
     o = Outcome (inl e) (snd a1) [EApi code]) /\
  (forall resp e, fst a1 = inr resp -> fst a2 = inl e -> e <> not_found ->
     o = Outcome (inl e) (snd a2) [EApi code; EApi conf]) /\
  (forall resp resp', fst a1 = inr resp -> fst a2 = inr resp' ->
     o = Outcome (py_getitem "FunctionArn" resp) (snd a2)
           [EApi code; EApi conf]) /\
  (fst a1 = inl not_found ->
     let a3 := invoke create (snd a1) in
     o = Outcome (function_arn (fst a3)) (snd a3) [EApi code; EApi create]) /\
  (forall resp, fst a1 = inr resp -> fst a2 = inl not_found ->
     let a3 := invoke create (snd a2) in
     o = Outcome (function_arn (fst a3)) (snd a3)
           [EApi code; EApi conf; EApi create]).
Proof.
  cbn zeta.
  destruct (invoke code w) as [[e | resp] w1] eqn:H1; cbn [fst snd].
  - rewrite (upsert_code_raises _ _ _ _ _ _ _ _ H1).
    repeat split; try (intros; discriminate).
    + intros Hc. left.
      destruct e as [c | | | | | ]; try discriminate Hc.
      destruct (String.eqb c "ResourceNotFoundException") eqn:Hn;
        [ | discriminate Hc ].
      apply String.eqb_eq in Hn. subst c. reflexivity.
    + intros [He | (resp & Hr & _)]; [ | discriminate Hr ].
      injection He as ->. reflexivity.
    + intros e' He Hne. injection He as <-.
      destruct e as [c | | | | | ]; try reflexivity.
      rewrite (not_found_code c Hne). reflexivity.
    + intros He. injection He as ->. reflexivity.
  - destruct (invoke conf w1) as [[e | resp'] w2] eqn:H2; cbn [fst snd].
    + rewrite (upsert_configuration_raises _ _ _ _ _ _ _ _ _ _ H1 H2).
      repeat split; try (intros; discriminate).
      * intros Hc. right. exists resp. split; [ reflexivity | ].
        destruct e as [c | | | | | ]; try discriminate Hc.
        destruct (String.eqb c "ResourceNotFoundException") eqn:Hn;
          [ | discriminate Hc ].
        apply String.eqb_eq in Hn. subst c. reflexivity.
      * intros [He | (r & _ & He)]; [ discriminate He | ].
        injection He as ->. reflexivity.
      * intros r e' _ He Hne. injection He as <-.
        destruct e as [c | | | | | ]; try reflexivity.
        rewrite (not_found_code c Hne). reflexivity.
      * intros r _ He. injection He as ->. reflexivity.
    + rewrite (upsert_updates _ _ _ _ _ _ _ _ _ _ H1 H2).
      repeat split; try (intros; discriminate).
      * intros [He | (r & _ & He)]; discriminate He.
      * intros r r' Hr _. injection Hr as <-. reflexivity.
Qed.

(** C9: when [update_function_code] answers and the
    [update_function_configuration] that follows raises a [ClientError] with
    code ["ResourceNotFoundException"], [create_function] is still called,
    and the run ends as that call does. *)
Theorem fallback_covers_configuration_update (w w1 w2 : W) (resp : dict) :
  invoke code w = (inr resp, w1) ->
  invoke conf w1 = (inl not_found, w2) ->
  let o := upsert_lambda fn role zip region env w in
  called "create_function" (trace o) = true /\
  trace o = [EApi code; EApi conf; EApi create] /\
  result o = function_arn (fst (invoke create w2)) /\
  world o = snd (invoke create w2).
Proof.
  intros H1 H2. cbn zeta.
  rewrite (upsert_configuration_raises _ _ _ _ _ _ _ _ _ _ H1 H2).
  cbn. repeat split; reflexivity.
Qed.

(** C7: when the update path raises ["ResourceNotFoundException"], the last
    call of [upsert_lambda] is [create_function] with runtime
    ["python3.12"], handler ["lambda_function.lambda_handler"], the given
    role, timeout 30, memory size 256, the given code payload and the given
    environment mapping. *)
Theorem create_function_parameters (w : W) :
  (fst (invoke code w) = inl not_found \/
   exists resp, fst (invoke code w) = inr resp /\
                fst (invoke conf (snd (invoke code w))) = inl not_found) ->
  exists earlier,
    trace (upsert_lambda fn role zip region env w) =
    earlier ++
    [EApi (ApiCall "lambda" "create_function"
             [("FunctionName", PStr fn);
              ("Runtime", PStr "python3.12");
              ("Role", PStr role);
              ("Handler", PStr "lambda_function.lambda_handler");
              ("Code", PDict [("ZipFile", PBytes zip)]);
              ("Timeout", PInt 30);
              ("MemorySize", PInt 256);
              ("Publish", PBool true);
              ("Environment",
               if dict_truthy env then PDict [("Variables", PDict env)]
               else PDict [])])].
Proof.
  intros [H1 | (resp & H1 & H2)];
    destruct (invoke code w) as [a1 w1] eqn:E1; cbn [fst snd] in *; subst a1.
  - rewrite (upsert_code_raises _ _ _ _ _ _ _ _ E1). cbn.
    exists [EApi code]. reflexivity.
  - destruct (invoke conf w1) as [a2 w2] eqn:E2; cbn [fst snd] in *; subst a2.
    rewrite (upsert_configuration_raises _ _ _ _ _ _ _ _ _ _ E1 E2). cbn.
    exists [EApi code; EApi conf]. reflexivity.
Qed.

(** C8: every run of [upsert_lambda] starts with [update_function_code]
    carrying [Publish=True], and every [update_function_code] and
    [create_function] call of the run carries [Publish=True]. *)
Theorem upsert_requests_publication (w : W) :
  let t := trace (upsert_lambda fn role zip region env w) in
  (exists rest,
     t = EApi (ApiCall "lambda" "update_function_code"
                 [("FunctionName", PStr fn);
                  ("ZipFile", PBytes zip);
                  ("Publish", PBool true)]) :: rest) /\
  (forall c, In (EApi c) t ->
     operation c = "update_function_code" \/ operation c = "create_function" ->
     dict_get "Publish" (kwargs c) = Some (PBool true)).
Proof.
  cbn zeta. split.
  - destruct (upsert_trace_cases w) as [E | [E | [E | E]]]; rewrite E;
      eexists; reflexivity.
  - intros c Hin Hop.
    assert (Hc : c = code \/ c = conf \/ c = create).
    { destruct (upsert_trace_cases w) as [E | [E | [E | E]]];
        rewrite E in Hin; cbn in Hin;
        repeat (destruct Hin as [Hin | Hin];
                [ injection Hin as <-; auto | ]); contradiction. }
    destruct Hc as [-> | [-> | ->]]; try reflexivity.
    destruct Hop as [Hop | Hop]; discriminate Hop.
Qed.

(** The [Environment] argument of the two calls that carry one. *)
Lemma upsert_environment (w : W) (c : api_call) :
  In (EApi c) (trace (upsert_lambda fn role zip region env w)) ->
  operation c = "update_function_configuration" \/
  operation c = "create_function" ->
  dict_get "Environment" (kwargs c) = Some (environment env).
Proof.
  intros Hin Hop.
  assert (Hc : c = code \/ c = conf \/ c = create).
  { destruct (upsert_trace_cases w) as [E | [E | [E | E]]];
      rewrite E in Hin; cbn in Hin;
      repeat (destruct Hin as [Hin | Hin];
              [ injection Hin as <-; auto | ]); contradiction. }
  destruct Hc as [-> | [-> | ->]]; try reflexivity.
  destruct Hop as [Hop | Hop]; discriminate Hop.
Qed.

End Upsert.

Lemma upsert_lambda_fallback_witness :
  (fst (invoke (update_function_code_request "f" [x50]) absent_function)
   = inl not_found /\
   upsert_lambda "f" "role" [x50] "us-east-1" [] absent_function =
   Outcome (inr (PStr "arn:aws:lambda:::function:f")) (Scripted.World [] [])
     [EApi (update_function_code_request "f" [x50]);
      EApi (create_function_request "f" "role" [x50] [])]) /\
  (fst (invoke (update_function_code_request "f" [x50]) throttled)
   = inl (ClientError "TooManyRequestsException") /\
   upsert_lambda "f" "role" [x50] "us-east-1" [] throttled =
   Outcome (inl (ClientError "TooManyRequestsException"))
     (Scripted.World [inr arn_f] [])
     [EApi (update_function_code_request "f" [x50])]).
Proof.
  split; (split; [ reflexivity | ]).
  - pose proof (upsert_lambda_fallback "f" "role" [x50] "us-east-1" []
                  absent_function) as T.
    cbv zeta in T. destruct T as (_ & _ & _ & _ & T & _).
    rewrite (T eq_refl). reflexivity.
  - pose proof (upsert_lambda_fallback "f" "role" [x50] "us-east-1" []
                  throttled) as T.
    cbv zeta in T. destruct T as (_ & T & _).
    apply T; [ reflexivity | discriminate ].
Defined.

Lemma fallback_covers_configuration_update_witness :
  invoke (update_function_code_request "f" [x50]) vanishing_function
  = (inr arn_f, Scripted.World [inl not_found; inr arn_f] []) /\
  invoke (update_function_configuration_request "f" "role" [])
    (Scripted.World [inl not_found; inr arn_f] [])
  = (inl not_found, Scripted.World [inr arn_f] []) /\
  called "create_function"
    (trace (upsert_lambda "f" "role" [x50] "us-east-1" [] vanishing_function))
  = true.
Proof.
  split; [ reflexivity | split; [ reflexivity | ] ].
  apply (fallback_covers_configuration_update "f" "role" [x50] "us-east-1" []
           vanishing_function (Scripted.World [inl not_found; inr arn_f] [])
           (Scripted.World [inr arn_f] []) arn_f); reflexivity.
Defined.

Lemma create_function_parameters_witness :
  fst (invoke (update_function_code_request "f" [x50]) absent_function)
  = inl not_found /\
  exists earlier,
    trace (upsert_lambda "f" "role" [x50] "us-east-1"
             [("SNS_TOPIC_ARN", PStr "arn:aws:sns:::t")] absent_function) =
    earlier ++
    [EApi (ApiCall "lambda" "create_function"
             [("FunctionName", PStr "f");
              ("Runtime", PStr "python3.12");
              ("Role", PStr "role");
              ("Handler", PStr "lambda_function.lambda_handler");
              ("Code", PDict [("ZipFile", PBytes [x50])]);
              ("Timeout", PInt 30);
              ("MemorySize", PInt 256);
              ("Publish", PBool true);
              ("Environment",
               PDict [("Variables",
                       PDict [("SNS_TOPIC_ARN", PStr "arn:aws:sns:::t")])])])].
Proof.
  split; [ reflexivity | ].
  apply (create_function_parameters "f" "role" [x50] "us-east-1"
           [("SNS_TOPIC_ARN", PStr "arn:aws:sns:::t")] absent_function).
  left. reflexivity.
Defined.

Lemma upsert_requests_publication_witness :
  In (EApi (create_function_request "f" "role" [x50] []))
    (trace (upsert_lambda "f" "role" [x50] "us-east-1" [] absent_function)) /\
  dict_get "Publish" (kwargs (create_function_request "f" "role" [x50] []))
  = Some (PBool true).
Proof.
  split; [ right; left; reflexivity | ].
  apply (proj2 (upsert_requests_publication "f" "role" [x50] "us-east-1" []
                  absent_function)).
  - right; left; reflexivity.
  - right; reflexivity.
Defined.

(** ** The permission granter *)

Section Permission.

Context {W : Type} `{Platform W}.

Variables (fn bucket_arn sid : string).

Let req := add_permission_request fn sid bucket_arn.

Lemma add_invoke_permission_run (w : W) :
  add_invoke_permission fn bucket_arn sid w =
  Outcome
    match fst (invoke req w) with
    | inr _ => inr PNone
    | inl (ClientError c) =>
        if String.eqb c "ResourceConflictException" then inr PNone
        else inl (ClientError c)
    | inl e => inl e
    end
    (snd (invoke req w)) [EApi req].
Proof.
  unfold add_invoke_permission, except_ClientError, bind.
  rewrite call_run. subst req. unfold add_permission_request.
  destruct (invoke _ w) as [[e | resp] w1]; cbn; [ | reflexivity ].
  destruct e as [c | | | | | ]; try reflexivity.
  destruct (String.eqb c "ResourceConflictException"); reflexivity.
Qed.

Lemma granted_returns (w : W) :
  granted (fst (invoke req w)) = true ->
  add_invoke_permission fn bucket_arn sid w =
  Outcome (inr PNone) (snd (invoke req w)) [EApi req].
Proof.
  intros Hg. rewrite add_invoke_permission_run.
  destruct (fst (invoke req w)) as [e | resp]; [ | reflexivity ].
  destruct e as [c | | | | | ]; try discriminate Hg.
  cbn in Hg. rewrite Hg. reflexivity.
Qed.

(** C4: when [add_permission] raises a [ClientError] with code
    ["ResourceConflictException"], [add_invoke_permission] returns [None];
    any other exception is the exception of the run; and two calls in a row,
    the provider answering each with a response or with the conflict error,
    both return. *)
Theorem permission_conflict_is_success (w : W) :
  let a := invoke req w in
  let o := add_invoke_permission fn bucket_arn sid w in
  (fst a = inl (ClientError "ResourceConflictException") ->
     o = Outcome (inr PNone) (snd a) [EApi req]) /\
  (forall resp, fst a = inr resp -> o = Outcome (inr PNone) (snd a) [EApi req]) /\
  (forall e, fst a = inl e -> e <> ClientError "ResourceConflictException" ->
     o = Outcome (inl e) (snd a) [EApi req]) /\
  (let a' := invoke req (snd a) in
   granted (fst a) = true -> granted (fst a') = true ->
   (add_invoke_permission fn bucket_arn sid ;;
    add_invoke_permission fn bucket_arn sid) w =
   Outcome (inr PNone) (snd a') [EApi req; EApi req]).
Proof.
  cbn zeta. repeat split.
  - intros Ha. rewrite granted_returns; [ reflexivity | ].
    rewrite Ha. reflexivity.
  - intros resp Ha. rewrite granted_returns; [ reflexivity | ].
    rewrite Ha. reflexivity.
  - intros e Ha Hne. rewrite add_invoke_permission_run, Ha.
    destruct e as [c | | | | | ]; try reflexivity.
    destruct (String.eqb c "ResourceConflictException") eqn:Hc; [ | reflexivity ].
    apply String.eqb_eq in Hc. subst c. contradiction Hne. reflexivity.
  - intros H1 H2. unfold bind.
    rewrite (granted_returns w H1). cbn.
    rewrite (granted_returns _ H2). reflexivity.
Qed.

(** The only call of [add_invoke_permission]. *)
Lemma add_invoke_permission_trace (w : W) :
  trace (add_invoke_permission fn bucket_arn sid w) = [EApi req].
Proof. rewrite add_invoke_permission_run. reflexivity. Qed.

End Permission.

Lemma permission_conflict_is_success_witness :
  let req := add_permission_request "f" "AllowS3Invoke" "arn:aws:s3:::b" in
  fst (invoke req deployed) = inr [("Statement", PStr "AllowS3Invoke")] /\
  fst (invoke req (snd (invoke req deployed)))
  = inl (ClientError "ResourceConflictException") /\
  result ((add_invoke_permission "f" "arn:aws:s3:::b" "AllowS3Invoke" ;;
           add_invoke_permission "f" "arn:aws:s3:::b" "AllowS3Invoke") deployed)
  = inr PNone /\
  add_invoke_permission "f" "arn:aws:s3:::b" "AllowS3Invoke"
    (snd (invoke req deployed))
  = Outcome (inr PNone) (snd (invoke req deployed)) [EApi req].
Proof.
  cbv zeta.
  split; [ reflexivity | split; [ reflexivity | split ] ].
  - pose proof (permission_conflict_is_success "f" "arn:aws:s3:::b"
                  "AllowS3Invoke" deployed) as T.
    cbv zeta in T. destruct T as (_ & _ & _ & T).
    rewrite (T eq_refl eq_refl). reflexivity.
  - pose proof (permission_conflict_is_success "f" "arn:aws:s3:::b"
                  "AllowS3Invoke"
                  (snd (invoke (add_permission_request "f" "AllowS3Invoke"
                                  "arn:aws:s3:::b") deployed))) as T.
    cbv zeta in T. destruct T as (T & _).
    rewrite (T eq_refl). reflexivity.
Defined.

(** ** The trigger configurator *)

Section Notification.

Context {W : Type} `{Platform W}.

Lemma py_eqb_str (v : pyval) (s : string) :
  py_eqb v (PStr s) =
  match v with
  | PStr t => String.eqb t s
  | _ => false
  end.
Proof. destruct v; reflexivity. Qed.

(** The test of the comprehension, on a rule that is a dictionary. *)
Lemma same_target (d : dict) (arn : string) :
  py_get "LambdaFunctionArn" (PDict d) = inr
    match dict_get "LambdaFunctionArn" d with
    | Some v => v
    | None => PNone
    end /\
  py_eqb match dict_get "LambdaFunctionArn" d with
         | Some v => v
         | None => PNone
         end (PStr arn) = targets arn (PDict d).
Proof.
  split; [ reflexivity | ].
  rewrite py_eqb_str. unfold targets.
  destruct (dict_get "LambdaFunctionArn" d) as [v | ]; [ destruct v | ];
    reflexivity.
Qed.

(** The comprehension keeps, in their order, the rules that do not target
    the function. *)
Lemma other_targets_filter (arn : string) (elems kept : list pyval) :
  other_targets (PStr arn) elems = inr kept ->
  kept = filter (fun c => negb (targets arn c)) elems.
Proof.
  revert kept. induction elems as [ | c rest IH]; intros kept Hk.
  - injection Hk as <-. reflexivity.
  - cbn [other_targets] in Hk.
    destruct c as [ | b | n | s | b | l | d]; try discriminate Hk.
    destruct (same_target d arn) as [Hg Ht]. rewrite Hg in Hk.
    destruct (other_targets (PStr arn) rest) as [e | kept'];
      [ discriminate Hk | ].
    injection Hk as <-. rewrite Ht. cbn [filter].
    rewrite (IH kept' eq_refl). reflexivity.
Qed.


(** The rule the configurator builds, written out. *)
Lemma lambda_config_shape (lambda_arn : pyval) (prefix suffix : option string) :
  lambda_config lambda_arn prefix suffix =
  [("LambdaFunctionArn", lambda_arn);
   ("Events", PList [PStr "s3:ObjectCreated:*"])] ++
  match filter_rule "prefix" prefix ++ filter_rule "suffix" suffix with
  | [] => []
  | r :: rules =>
      [("Filter", PDict [("Key", PDict [("FilterRules", PList (r :: rules))])])]
  end.
Proof.
  destruct prefix as [[ | a p] | ], suffix as [[ | b s] | ]; reflexivity.
Qed.

Lemma lambda_config_targets (arn : string) (prefix suffix : option string) :
  targets arn (PDict (lambda_config (PStr arn) prefix suffix)) = true.
Proof.
  rewrite lambda_config_shape. cbn. apply String.eqb_refl.
Qed.

Variables (bucket : string) (lambda_arn : pyval) (prefix suffix : option string).

Let get := get_notification_request bucket.

(** The configuration the configurator writes over the kept rules. *)
Let written (kept : list pyval) : dict :=
  [("LambdaFunctionConfigurations",
    PList (kept ++ [PDict (lambda_config lambda_arn prefix suffix)]))].

Lemma configure_run (w : W) :
  configure_s3_notification bucket lambda_arn prefix suffix w =
  let a := invoke get w in
  match fst a with
  | inl e => Outcome (inl e) (snd a) [EApi get]
  | inr cfg =>
      match py_iter (existing_rules cfg) with
      | inl e => Outcome (inl e) (snd a) [EApi get]
      | inr elems =>
          match other_targets lambda_arn elems with
          | inl e => Outcome (inl e) (snd a) [EApi get]
          | inr kept =>
              let b := invoke (put_notification_request bucket (written kept))
                         (snd a) in
              Outcome
                match fst b with
                | inl e => inl e
                | inr _ => inr PNone
                end (snd b)
                [EApi get; EApi (put_notification_request bucket (written kept))]
          end
      end
  end.
Proof.
  unfold configure_s3_notification, bind. rewrite call_run.
  subst get written. unfold get_notification_request, existing_rules. cbn zeta.
  destruct (invoke _ w) as [[e | cfg] w1]; cbn; [ reflexivity | ].
  destruct (py_iter _) as [e | elems]; cbn; [ reflexivity | ].
  destruct (other_targets lambda_arn elems) as [e | kept]; cbn; [ reflexivity | ].
  rewrite call_run. unfold put_notification_request.
  destruct (invoke _ w1) as [[e | resp] w2]; reflexivity.
Qed.

(** A run that returns has read the configuration, kept the rules of the
    other targets and written them back with the new rule at the end. *)
Lemma configure_returns (w : W) (v : pyval) :
  result (configure_s3_notification bucket lambda_arn prefix suffix w) = inr v ->
  exists cfg elems kept,
    fst (invoke get w) = inr cfg /\
    py_iter (existing_rules cfg) = inr elems /\
    other_targets lambda_arn elems = inr kept /\
    trace (configure_s3_notification bucket lambda_arn prefix suffix w) =
    [EApi get; EApi (put_notification_request bucket (written kept))] /\
    v = PNone.
Proof.
  rewrite configure_run. cbn zeta.
  destruct (fst (invoke get w)) as [e | cfg] eqn:E1; [ discriminate | ].
  destruct (py_iter (existing_rules cfg)) as [e | elems] eqn:E2;
    [ discriminate | ].
  destruct (other_targets lambda_arn elems) as [e | kept] eqn:E3;
    [ discriminate | ].
  cbn. intros Hv. exists cfg, elems, kept.
  repeat split; try assumption.
  destruct (fst (invoke _ (snd (invoke get w)))); congruence.
Qed.

(** The calls of [configure_s3_notification] are the read and the write. *)
Lemma configure_trace_operations (w : W) (c : api_call) :
  In (EApi c) (trace (configure_s3_notification bucket lambda_arn prefix suffix w)) ->
  operation c = "get_bucket_notification_configuration" \/
  operation c = "put_bucket_notification_configuration".
Proof.
  rewrite configure_run. cbn zeta.
  destruct (fst (invoke get w)) as [e | cfg];
    [ | destruct (py_iter (existing_rules cfg)) as [e | elems];
        [ | destruct (other_targets lambda_arn elems) as [e | kept] ] ];
    cbn; intros Hin;
    repeat (destruct Hin as [Hin | Hin]; [ injection Hin as <-; auto | ]);
    contradiction.
Qed.

End Notification.

(** ** What the configurator writes *)

Section Rules.

Context {W : Type} `{Platform W}.

Variable bucket : string.


(** C6, amended: the rule a returning run appends has the function as its
    target and ["s3:ObjectCreated:*"] as its only event; its filter has a
    prefix rule exactly when the prefix is a non-empty [str] and a suffix
    rule exactly when the suffix is a non-empty [str]; and it has no
    [Filter] key exactly when neither is a non-empty [str]. *)
Theorem appended_rule_shape (lambda_arn : pyval) (prefix suffix : option string)
    (w : W) (v : pyval) :
  result (configure_s3_notification bucket lambda_arn prefix suffix w) = inr v ->
  exists kept rule,
    trace (configure_s3_notification bucket lambda_arn prefix suffix w) =
    [EApi (get_notification_request bucket);
     EApi (put_notification_request bucket
             [("LambdaFunctionConfigurations",
               PList (kept ++ [PDict rule]))])] /\
    rule =
    [("LambdaFunctionArn", lambda_arn);
     ("Events", PList [PStr "s3:ObjectCreated:*"])] ++
    match filter_rule "prefix" prefix ++ filter_rule "suffix" suffix with
    | [] => []
    | r :: rules =>
        [("Filter", PDict [("Key", PDict [("FilterRules", PList (r :: rules))])])]
    end /\
    has_filter_rule "prefix" rule = opt_truthy prefix /\
    has_filter_rule "suffix" rule = opt_truthy suffix /\
    (dict_get "Filter" rule = None <->
     opt_truthy prefix = false /\ opt_truthy suffix = false).
Proof.
  intros Hv.
  destruct (configure_returns bucket lambda_arn prefix suffix w v Hv)
    as (cfg & elems & kept & _ & _ & _ & Ht & _).
  exists kept, (lambda_config lambda_arn prefix suffix).
  split; [ exact Ht | ].
  split; [ apply lambda_config_shape | ].
  rewrite lambda_config_shape.
  destruct prefix as [[ | a p] | ], suffix as [[ | b s] | ]; cbn;
    repeat split; intros; try discriminate; try reflexivity;
    match goal with
    | Hc : _ /\ _ |- _ => destruct Hc; discriminate
    end.
Qed.


End Rules.

Lemma appended_rule_shape_witness :
  result (configure_s3_notification "b" arn_of_f (Some "in/") (Some ".csv")
            deployed) = inr PNone /\
  exists kept rule,
    trace (configure_s3_notification "b" arn_of_f (Some "in/") (Some ".csv")
             deployed) =
    [EApi (get_notification_request "b");
     EApi (put_notification_request "b"
             [("LambdaFunctionConfigurations", PList (kept ++ [PDict rule]))])] /\
    rule =
    [("LambdaFunctionArn", arn_of_f);
     ("Events", PList [PStr "s3:ObjectCreated:*"])] ++
    match filter_rule "prefix" (Some "in/") ++ filter_rule "suffix" (Some ".csv")
    with
    | [] => []
    | r :: rules =>
        [("Filter", PDict [("Key", PDict [("FilterRules", PList (r :: rules))])])]
    end /\
    has_filter_rule "prefix" rule = opt_truthy (Some "in/") /\
    has_filter_rule "suffix" rule = opt_truthy (Some ".csv") /\
    (dict_get "Filter" rule = None <->
     opt_truthy (Some "in/") = false /\ opt_truthy (Some ".csv") = false).
Proof.
  split; [ reflexivity | ].
  apply (appended_rule_shape "b" arn_of_f (Some "in/") (Some ".csv") deployed
           PNone).
  reflexivity.
Defined.

(** C6 as stated fails for a prefix that is given and empty: the rule the
    run appends has no prefix rule, and no [Filter] key at all. *)
Lemma empty_prefix_adds_no_rule :
  given (Some "") = true /\
  configure_s3_notification "b" arn_of_f (Some "") None deployed =
  Outcome (inr PNone)
    (Cloud.World ["f"] []
       [("b", [("LambdaFunctionConfigurations",
                PList [PDict (lambda_config arn_of_f (Some "") None)])])] [])
    [EApi (get_notification_request "b");
     EApi (put_notification_request "b"
             [("LambdaFunctionConfigurations",
               PList [PDict (lambda_config arn_of_f (Some "") None)])])] /\
  dict_get "Filter" (lambda_config arn_of_f (Some "") None) = None /\
  ~ (has_filter_rule "prefix" (lambda_config arn_of_f (Some "") None) = true <->
     given (Some "") = true).
Proof.
  repeat split; try reflexivity.
  intros [_ Hg]. specialize (Hg eq_refl). discriminate Hg.
Qed.


(** C1 fails on the code: with a topic rule in the bucket's configuration
    and no function rule, the run returns, and the configuration it writes
    (and the provider stores) holds the new function rule only; the topic
    rule is gone. *)
Theorem topic_rules_are_dropped :
  let o := configure_s3_notification "b" arn_of_f None None bucket_with_topic in
  let new_rule :=
    PDict [("LambdaFunctionArn", arn_of_f);
           ("Events", PList [PStr "s3:ObjectCreated:*"])] in
  Cloud.stored "b" (Cloud.notifications bucket_with_topic) =
  Some [("TopicConfigurations", PList [topic_rule])] /\
  result o = inr PNone /\
  trace o =
  [EApi (get_notification_request "b");
   EApi (put_notification_request "b"
           [("LambdaFunctionConfigurations", PList [new_rule])])] /\
  Cloud.stored "b" (Cloud.notifications (world o)) =
  Some [("LambdaFunctionConfigurations", PList [new_rule])].
Proof. cbv zeta. repeat split. Qed.

(** ** The constructions of [main] *)

Section Constructions.

Context {W : Type} `{Platform W}.

Lemma bind_raises {A B : Type} (m : M W A) (k : A -> M W B) (w : W) (e : exn) :
  result (m w) = inl e ->
  bind m k w = Outcome (inl e) (world (m w)) (trace (m w)).
Proof. intros Hr. unfold bind. cbn zeta. rewrite Hr. reflexivity. Qed.

Lemma bind_session {B : Type} (region : string) (k : unit -> M W B)
    (w w' : W) (r : exn + B) (t : list event) :
  open_session region w = None ->
  k tt w = Outcome r w' t ->
  bind (boto3_Session region) k w = Outcome r w' (ESession region :: t).
Proof.
  intros Ho E. unfold bind, boto3_Session, construct. rewrite Ho. cbn.
  rewrite E. reflexivity.
Qed.

Lemma bind_client {B : Type} (region svc : string) (k : unit -> M W B)
    (w w' : W) (r : exn + B) (t : list event) :
  create_client region svc w = None ->
  k tt w = Outcome r w' t ->
  bind (session_client region svc) k w = Outcome r w' (EClient svc :: t).
Proof.
  intros Ho E. unfold bind, session_client, construct. rewrite Ho. cbn.
  rewrite E. reflexivity.
Qed.

Lemma created_parts (args : arguments) (w : W) :
  created args w = true ->
  open_session (args_region args) w = None /\
  create_client (args_region args) "s3" w = None /\
  create_client (args_region args) "lambda" w = None.
Proof.
  unfold created.
  destruct (open_session (args_region args) w),
           (create_client (args_region args) "s3" w),
           (create_client (args_region args) "lambda" w);
    intros Hc; try discriminate Hc; repeat split.
Qed.

End Constructions.

(** [main] behind the constructions, when they return. *)
Ltac enter_main Hc :=
  let Hs := fresh "Hs" in
  let H3 := fresh "H3" in
  let Hl := fresh "Hl" in
  unfold main;
  destruct (created_parts _ _ Hc) as (Hs & H3 & Hl);
  apply bind_session; [ exact Hs | ];
  apply bind_client; [ exact H3 | ];
  apply bind_client; [ exact Hl | ].

(** ** The whole script *)

Section Main.

Context {W : Type} `{Platform W}.

(** An event of a sequence is an event of its first part, or of what
    follows a normal return of the first part. *)
Lemma bind_trace_in {A B : Type} (m : M W A) (k : A -> M W B) (w : W)
    (ev : event) :
  In ev (trace (bind m k w)) ->
  In ev (trace (m w)) \/
  exists a, result (m w) = inr a /\ In ev (trace (k a (world (m w)))).
Proof.
  unfold bind. cbn zeta.
  destruct (result (m w)) as [e | a]; cbn [trace]; intros Hin.
  - left. exact Hin.
  - apply in_app_or in Hin. destruct Hin as [Hin | Hin]; [ left | right ].
    + exact Hin.
    + exists a. split; [ reflexivity | exact Hin ].
Qed.

Lemma bind_ask {A B : Type} (f : W -> A) (k : A -> M W B) (w : W)
    (o : outcome W B) :
  k (f w) w = o -> bind (ask f) k w = o.
Proof. intros <-. unfold bind, ask. cbn. destruct (k (f w) w); reflexivity. Qed.

(** When a construction raises, [main] raises the same and has done nothing
    but the constructions before it. *)
Lemma main_not_created (args : arguments) (w : W) :
  created args w = false ->
  exists name t,
    main args w = Outcome (inl (OtherError name)) w t /\
    forall ev, In ev t ->
      ev = ESession (args_region args) \/ ev = EClient "s3" \/
      ev = EClient "lambda".
Proof.
  unfold created. intros Hc.
  destruct (open_session (args_region args) w) as [n | ] eqn:Hs.
  { exists n, [ESession (args_region args)]. split.
    - unfold main. erewrite bind_raises; [ reflexivity | ].
      unfold boto3_Session, construct. rewrite Hs. reflexivity.
    - intros ev [<- | []]. auto. }
  destruct (create_client (args_region args) "s3" w) as [n | ] eqn:H3.
  { exists n, [ESession (args_region args); EClient "s3"]. split.
    - unfold main. apply bind_session; [ exact Hs | ].
      erewrite bind_raises; [ reflexivity | ].
      unfold session_client, construct. rewrite H3. reflexivity.
    - intros ev [<- | [<- | []]]; auto. }
  destruct (create_client (args_region args) "lambda" w) as [n | ] eqn:Hl;
    [ | discriminate Hc ].
  exists n, [ESession (args_region args); EClient "s3"; EClient "lambda"]. split.
  - unfold main. apply bind_session; [ exact Hs | ].
    apply bind_client; [ exact H3 | ].
    erewrite bind_raises; [ reflexivity | ].
    unfold session_client, construct. rewrite Hl. reflexivity.
  - intros ev [<- | [<- | [<- | []]]]; auto.
Qed.

Lemma main_env_truthy (args : arguments) :
  dict_truthy (main_env args) =
  opt_truthy (args_sns_topic_arn args) || opt_truthy (args_slack_webhook_url args).
Proof.
  unfold main_env.
  destruct (args_sns_topic_arn args) as [[ | a s] | ],
           (args_slack_webhook_url args) as [[ | b t] | ]; reflexivity.
Qed.


(** Splits off the first part of a sequence when that part is a single
    event that is not a client call. *)
Ltac first_part Hin :=
  apply bind_trace_in in Hin;
  destruct Hin as [Hin | (? & _ & Hin)];
  [ cbn in Hin; destruct Hin as [Hin | []]; discriminate Hin | ].

(** The [Environment] argument of every call of [main] that carries one. *)
Lemma main_environment (args : arguments) (w : W) (c : api_call) :
  In (EApi c) (trace (main args w)) ->
  operation c = "update_function_configuration" \/
  operation c = "create_function" ->
  dict_get "Environment" (kwargs c) = Some (environment (main_env args)).
Proof.
  intros Hin Hop. unfold main in Hin.
  first_part Hin. first_part Hin. first_part Hin.
  apply bind_trace_in in Hin.
  destruct Hin as [[] | (present & _ & Hin)].
  destruct present; cbn [negb] in Hin.
  - apply bind_trace_in in Hin.
    destruct Hin as [Hin | (code_zip & _ & Hin)].
    { unfold zip_bytes in Hin. first_part Hin.
      apply bind_trace_in in Hin.
      destruct Hin as [[] | (? & _ & [])]. }
    apply bind_trace_in in Hin.
    destruct Hin as [Hin | (lambda_arn & _ & Hin)].
    { exact (upsert_environment _ _ _ _ _ _ _ Hin Hop). }
    apply bind_trace_in in Hin.
    destruct Hin as [Hin | (? & _ & Hin)].
    { rewrite add_invoke_permission_trace in Hin.
      destruct Hin as [Hin | []]. injection Hin as <-.
      destruct Hop as [Hop | Hop]; discriminate Hop. }
    apply bind_trace_in in Hin.
    destruct Hin as [Hin | (? & _ & Hin)].
    { apply configure_trace_operations in Hin.
      destruct Hin as [Hc | Hc], Hop as [Hop | Hop]; rewrite Hc in Hop;
        discriminate Hop. }
    first_part Hin. first_part Hin. first_part Hin.
    destruct Hin.
  - first_part Hin. destruct Hin.
Qed.

(** C10: when neither [--sns-topic-arn] nor [--slack-webhook-url] is given,
    the [env] of [main] is empty and every [update_function_configuration]
    and [create_function] call of the run carries [Environment={}]; in any
    run the argument is [{"Variables": env}] when [env] is not empty, which
    is when one of the two options is a non-empty [str], and [{}]
    otherwise. *)
Theorem empty_environment_is_bare (args : arguments) (w : W) :
  (args_sns_topic_arn args = None -> args_slack_webhook_url args = None ->
   main_env args = [] /\
   forall c, In (EApi c) (trace (main args w)) ->
     operation c = "update_function_configuration" \/
     operation c = "create_function" ->
     dict_get "Environment" (kwargs c) = Some (PDict [])) /\
  (forall c, In (EApi c) (trace (main args w)) ->
     operation c = "update_function_configuration" \/
     operation c = "create_function" ->
     dict_get "Environment" (kwargs c) =
     Some (if opt_truthy (args_sns_topic_arn args)
              || opt_truthy (args_slack_webhook_url args)
           then PDict [("Variables", PDict (main_env args))]
           else PDict [])).
Proof.
  split.
  - intros Hs Hu.
    assert (E : main_env args = []).
    { unfold main_env. rewrite Hs, Hu. reflexivity. }
    split; [ exact E | ].
    intros c Hin Hop. rewrite (main_environment args w c Hin Hop), E.
    reflexivity.
  - intros c Hin Hop. rewrite (main_environment args w c Hin Hop).
    unfold environment. rewrite main_env_truthy. reflexivity.
Qed.

End Main.


Lemma empty_environment_is_bare_witness :
  args_sns_topic_arn plain_arguments = None /\
  args_slack_webhook_url plain_arguments = None /\
  In (EApi (update_function_configuration_request "f" "role" []))
    (trace (main plain_arguments ready)) /\
  dict_get "Environment"
    (kwargs (update_function_configuration_request "f" "role" []))
  = Some (PDict []).
Proof.
  split; [ reflexivity | split; [ reflexivity | ] ].
  split; [ vm_compute; tauto | ].
  apply (proj1 (empty_environment_is_bare plain_arguments ready)
           eq_refl eq_refl).
  - vm_compute. tauto.
  - left. reflexivity.
Defined.

(** ** What the configurator keeps *)

Section Frame.

Context {W : Type} `{Platform W}.

(** X1: a returning run for the function [arn] writes back, in their order,
    the function rules of the configuration it read that do not target
    [arn], followed by the new rule. *)
Theorem other_function_rules_kept (bucket arn : string)
    (prefix suffix : option string) (w : W) (v : pyval) :
  result (configure_s3_notification bucket (PStr arn) prefix suffix w) = inr v ->
  exists cfg elems,
    fst (invoke (get_notification_request bucket) w) = inr cfg /\
    py_iter (existing_rules cfg) = inr elems /\
    trace (configure_s3_notification bucket (PStr arn) prefix suffix w) =
    [EApi (get_notification_request bucket);
     EApi (put_notification_request bucket
             [("LambdaFunctionConfigurations",
               PList (filter (fun c => negb (targets arn c)) elems ++
                      [PDict (lambda_config (PStr arn) prefix suffix)]))])].
Proof.
  intros Hv.
  destruct (configure_returns bucket (PStr arn) prefix suffix w v Hv)
    as (cfg & elems & kept & Hc & He & Hk & Ht & _).
  exists cfg, elems. split; [ exact Hc | split; [ exact He | ] ].
  rewrite <- (other_targets_filter arn elems kept Hk). exact Ht.
Qed.

End Frame.

Lemma other_function_rules_kept_witness :
  result (configure_s3_notification "b" arn_of_f None None bucket_with_rules)
  = inr PNone /\
  Cloud.stored "b"
    (Cloud.notifications
       (world (configure_s3_notification "b" arn_of_f None None
                 bucket_with_rules))) =
  Some [("LambdaFunctionConfigurations",
         PList [rule_for "arn:aws:lambda:::function:g" "s3:ObjectRemoved:*";
                PDict (lambda_config arn_of_f None None)])] /\
  exists cfg elems,
    fst (invoke (get_notification_request "b") bucket_with_rules) = inr cfg /\
    py_iter (existing_rules cfg) = inr elems /\
    trace (configure_s3_notification "b" arn_of_f None None bucket_with_rules) =
    [EApi (get_notification_request "b");
     EApi (put_notification_request "b"
             [("LambdaFunctionConfigurations",
               PList (filter
                        (fun c => negb (targets "arn:aws:lambda:::function:f" c))
                        elems ++
                      [PDict (lambda_config arn_of_f None None)]))])].
Proof.
  split; [ reflexivity | split; [ reflexivity | ] ].
  apply (other_function_rules_kept "b" "arn:aws:lambda:::function:f" None None
           bucket_with_rules PNone).
  reflexivity.
Defined.

(** ** The steps of [main] in sequence *)

Section Sequence.

Context {W : Type} `{Platform W}.

Lemma bind_run {A B : Type} (m : M W A) (k : A -> M W B) (w : W) :
  bind m k w =
  match result (m w) with
  | inl e => Outcome (inl e) (world (m w)) (trace (m w))
  | inr a =>
      Outcome (result (k a (world (m w)))) (world (k a (world (m w))))
        (trace (m w) ++ trace (k a (world (m w))))
  end.
Proof. reflexivity. Qed.

Lemma zip_bytes_run (file_path arcname : string) (w : W) :
  zip_bytes file_path arcname w =
  Outcome (zip_archive file_path arcname w) w [EZip file_path arcname].
Proof. reflexivity. Qed.

Lemma main_missing_run (args : arguments) (w : W) :
  created args w = true ->
  path_exists (args_file args) w = false ->
  main args w =
  Outcome (inl (SystemExit 1)) w
    [ESession (args_region args); EClient "s3"; EClient "lambda";
     EPrint "stderr" [PStr ("Missing " ++ args_file args)]].
Proof.
  intros Hc Hex. enter_main Hc. apply bind_ask.
  rewrite Hex. reflexivity.
Qed.

(** The run of [main] when the handler file exists, step by step. *)
Lemma main_run (args : arguments) (w : W) :
  created args w = true ->
  path_exists (args_file args) w = true ->
  main args w =
  match zip_archive (args_file args) "lambda_function.py" w with
  | inl e => Outcome (inl e) w (prelude args)
  | inr code_zip =>
      let o1 := upsert_lambda (args_function args) (args_role_arn args)
                  code_zip (args_region args) (main_env args) w in
      match result o1 with
      | inl e => Outcome (inl e) (world o1) (prelude args ++ trace o1)
      | inr lambda_arn =>
          let o2 := add_invoke_permission (args_function args)
                      ("arn:aws:s3:::" ++ args_bucket args) "AllowS3Invoke"
                      (world o1) in
          match result o2 with
          | inl e =>
              Outcome (inl e) (world o2) (prelude args ++ trace o1 ++ trace o2)
          | inr _ =>
              let o3 := configure_s3_notification (args_bucket args) lambda_arn
                          (args_prefix args) (args_suffix args) (world o2) in
              match result o3 with
              | inl e =>
                  Outcome (inl e) (world o3)
                    (prelude args ++ trace o1 ++ trace o2 ++ trace o3)
              | inr _ =>
                  Outcome (inr PNone) (world o3)
                    (prelude args ++ trace o1 ++ trace o2 ++ trace o3 ++
                     summary args lambda_arn)
              end
          end
      end
  end.
Proof.
  intros Hc Hex. unfold prelude, summary. cbn zeta.
  assert (Hstart : forall r w' t,
             (code_zip <- zip_bytes (args_file args) "lambda_function.py" ;;
              lambda_arn <- upsert_lambda (args_function args)
                              (args_role_arn args) code_zip (args_region args)
                              (main_env args) ;;
              add_invoke_permission (args_function args)
                ("arn:aws:s3:::" ++ args_bucket args) "AllowS3Invoke" ;;
              configure_s3_notification (args_bucket args) lambda_arn
                (args_prefix args) (args_suffix args) ;;
              print "stdout" [PStr "Done."] ;;
              print "stdout" [PStr "Lambda ARN:"; lambda_arn] ;;
              print "stdout"
                [PStr ("S3 bucket '" ++ args_bucket args ++ "' now triggers '"
                       ++ args_function args ++ "' on ObjectCreated events.")] ;;
              ret PNone) w = Outcome r w' t ->
             main args w =
             Outcome r w'
               (ESession (args_region args) :: EClient "s3" :: EClient "lambda"
                :: t)).
  { intros r w' t E. enter_main Hc. apply bind_ask.
    rewrite Hex. exact E. }
  destruct (zip_archive (args_file args) "lambda_function.py" w)
    as [e | code_zip] eqn:Ez.
  { apply Hstart. rewrite bind_run, zip_bytes_run. cbn [result world trace].
    rewrite Ez. reflexivity. }
  destruct (result (upsert_lambda (args_function args) (args_role_arn args)
                      code_zip (args_region args) (main_env args) w))
    as [e | lambda_arn] eqn:E1.
  { apply Hstart. rewrite bind_run, zip_bytes_run. cbn [result world trace].
    rewrite Ez, bind_run, E1. reflexivity. }
  destruct (result (add_invoke_permission (args_function args)
                      ("arn:aws:s3:::" ++ args_bucket args) "AllowS3Invoke" _))
    as [e | v2] eqn:E2.
  { apply Hstart. rewrite bind_run, zip_bytes_run. cbn [result world trace].
    rewrite Ez, bind_run, E1, bind_run, E2. cbn [app].
    reflexivity. }
  destruct (result (configure_s3_notification (args_bucket args) lambda_arn
                      (args_prefix args) (args_suffix args) _))
    as [e | v3] eqn:E3.
  { apply Hstart. rewrite bind_run, zip_bytes_run. cbn [result world trace].
    rewrite Ez, bind_run, E1, bind_run, E2, bind_run, E3. cbn [app].
    reflexivity. }
  apply Hstart. rewrite bind_run, zip_bytes_run. cbn [result world trace].
  rewrite Ez, bind_run, E1, bind_run, E2, bind_run, E3. cbn [app].
  reflexivity.
Qed.

End Sequence.

(** ** Which events a step produces *)

Section Events.

Context {W : Type} `{Platform W}.

(** Every event of [upsert_lambda] is a call on the [lambda] client, one of
    its three requests. *)
Lemma upsert_events (fn role : string) (zip : list byte) (region : string)
    (env : dict) (w : W) (ev : event) :
  In ev (trace (upsert_lambda fn role zip region env w)) ->
  ev = EApi (update_function_code_request fn zip) \/
  ev = EApi (update_function_configuration_request fn role env) \/
  ev = EApi (create_function_request fn role zip env).
Proof.
  intros Hin.
  pose proof (upsert_trace_cases fn role zip region env w) as T.
  cbv zeta in T.
  destruct T as [E | [E | [E | E]]]; rewrite E in Hin; cbn in Hin;
    repeat (destruct Hin as [Hin | Hin]; [ subst ev; auto | ]); contradiction.
Qed.

(** Every event of [configure_s3_notification] is a call on the [s3] client
    for the given bucket, the read or the write. *)
Lemma configure_events (bucket : string) (lambda_arn : pyval)
    (prefix suffix : option string) (w : W) (ev : event) :
  In ev (trace (configure_s3_notification bucket lambda_arn prefix suffix w)) ->
  ev = EApi (get_notification_request bucket) \/
  exists rules,
    ev = EApi (put_notification_request bucket
                 [("LambdaFunctionConfigurations", PList rules)]).
Proof.
  rewrite configure_run. cbn zeta.
  destruct (fst (invoke (get_notification_request bucket) w)) as [e | cfg];
    [ | destruct (py_iter (existing_rules cfg)) as [e | elems];
        [ | destruct (other_targets lambda_arn elems) as [e | kept] ] ];
    cbn [trace In]; intros Hin;
    repeat (destruct Hin as [Hin | Hin]; [ subst ev; eauto | ]);
    contradiction.
Qed.

(** Filtering again after the new rule was appended gives the kept rules
    back: the new rule is the only one that targets the function. *)
Lemma other_targets_again (arn : string) (prefix suffix : option string)
    (elems kept : list pyval) :
  other_targets (PStr arn) elems = inr kept ->
  other_targets (PStr arn)
    (kept ++ [PDict (lambda_config (PStr arn) prefix suffix)]) = inr kept.
Proof.
  revert kept. induction elems as [ | c rest IH]; intros kept Hk.
  - injection Hk as <-. cbn [app other_targets].
    destruct (same_target (lambda_config (PStr arn) prefix suffix) arn)
      as [Hg Ht].
    rewrite Hg, Ht, lambda_config_targets. reflexivity.
  - cbn [other_targets] in Hk.
    destruct c as [ | b | n | s | b | l | d]; try discriminate Hk.
    destruct (same_target d arn) as [Hg Ht]. rewrite Hg, Ht in Hk.
    destruct (other_targets (PStr arn) rest) as [e | kept'];
      [ discriminate Hk | ].
    destruct (targets arn (PDict d)) eqn:Hd; cbn [negb] in Hk;
      injection Hk as <-.
    + apply IH. reflexivity.
    + change ((PDict d :: kept') ++
              [PDict (lambda_config (PStr arn) prefix suffix)])
        with (PDict d :: kept' ++
              [PDict (lambda_config (PStr arn) prefix suffix)]).
      cbn [other_targets]. rewrite Hg, Ht, (IH kept' eq_refl).
      reflexivity.
Qed.

End Events.

(** ** Further properties of the configurator *)

Section Configurator.

Context {W : Type} `{Platform W}.

(** X2: the configuration a run writes has the key
    [LambdaFunctionConfigurations], holding a list, and no other key:
    whatever else the configuration read held is not written back. *)
Theorem only_function_rules_written (bucket : string) (lambda_arn : pyval)
    (prefix suffix : option string) (w : W) (c : api_call) :
  In (EApi c)
    (trace (configure_s3_notification bucket lambda_arn prefix suffix w)) ->
  operation c = "put_bucket_notification_configuration" ->
  exists conf rules,
    kwargs c = [("Bucket", PStr bucket);
                ("NotificationConfiguration", PDict conf)] /\
    conf = [("LambdaFunctionConfigurations", PList rules)] /\
    dict_get "LambdaFunctionConfigurations" conf = Some (PList rules) /\
    forall k, k <> "LambdaFunctionConfigurations" -> dict_get k conf = None.
Proof.
  intros Hin Hop.
  destruct (configure_events _ _ _ _ _ _ Hin) as [E | (rules & E)];
    injection E as ->; [ discriminate Hop | ].
  exists [("LambdaFunctionConfigurations", PList rules)], rules.
  split; [ reflexivity | split; [ reflexivity | split; [ reflexivity | ] ] ].
  intros k Hk. cbn [dict_get].
  apply String.eqb_neq in Hk. rewrite Hk. reflexivity.
Qed.

(** X3: when the provider gives back the rule list the first run wrote, a
    second run for the same function writes the same list with the first
    run's rule replaced by its own: with the same filters, the same list. *)
Theorem second_run_replaces_rule (bucket arn : string)
    (prefix suffix prefix' suffix' : option string) (w : W) (v1 v2 : pyval)
    (first : list pyval) (cfg2 : dict) :
  let o1 := configure_s3_notification bucket (PStr arn) prefix suffix w in
  let o2 := configure_s3_notification bucket (PStr arn) prefix' suffix'
              (world o1) in
  result o1 = inr v1 ->
  trace o1 =
  [EApi (get_notification_request bucket);
   EApi (put_notification_request bucket
           [("LambdaFunctionConfigurations", PList first)])] ->
  fst (invoke (get_notification_request bucket) (world o1)) = inr cfg2 ->
  existing_rules cfg2 = PList first ->
  result o2 = inr v2 ->
  exists kept,
    first = kept ++ [PDict (lambda_config (PStr arn) prefix suffix)] /\
    trace o2 =
    [EApi (get_notification_request bucket);
     EApi (put_notification_request bucket
             [("LambdaFunctionConfigurations",
               PList (kept ++
                      [PDict (lambda_config (PStr arn) prefix' suffix')]))])].
Proof.
  cbn zeta. intros H1 T1 G2 R2 H2.
  destruct (configure_returns bucket (PStr arn) prefix suffix w v1 H1)
    as (cfg & elems & kept & _ & _ & Hk & Ht & _).
  rewrite Ht in T1. injection T1 as <-.
  destruct (configure_returns bucket (PStr arn) prefix' suffix' _ v2 H2)
    as (cfg' & elems' & kept' & Hc' & He' & Hk' & Ht' & _).
  rewrite G2 in Hc'. injection Hc' as <-.
  rewrite R2 in He'. injection He' as <-.
  rewrite (other_targets_again arn prefix suffix elems kept Hk) in Hk'.
  injection Hk' as <-.
  exists kept. split; [ reflexivity | exact Ht' ].
Qed.

(** X4: [configure_s3_notification] handles no exception.  When the read
    raises, or the rules read cannot be iterated or hold a value without
    [get], the run raises after the read and writes nothing; when the write
    raises, the run raises the same. *)
Theorem configure_failures (bucket : string) (lambda_arn : pyval)
    (prefix suffix : option string) (w : W) :
  let o := configure_s3_notification bucket lambda_arn prefix suffix w in
  let a := invoke (get_notification_request bucket) w in
  (forall e, fst a = inl e ->
     o = Outcome (inl e) (snd a) [EApi (get_notification_request bucket)]) /\
  (forall cfg e, fst a = inr cfg -> py_iter (existing_rules cfg) = inl e ->
     o = Outcome (inl e) (snd a) [EApi (get_notification_request bucket)]) /\
  (forall cfg elems e, fst a = inr cfg ->
     py_iter (existing_rules cfg) = inr elems ->
     other_targets lambda_arn elems = inl e ->
     o = Outcome (inl e) (snd a) [EApi (get_notification_request bucket)]) /\
  (forall cfg elems kept e, fst a = inr cfg ->
     py_iter (existing_rules cfg) = inr elems ->
     other_targets lambda_arn elems = inr kept ->
     let put := put_notification_request bucket
                  [("LambdaFunctionConfigurations",
                    PList (kept ++
                           [PDict (lambda_config lambda_arn prefix suffix)]))] in
     fst (invoke put (snd a)) = inl e ->
     o = Outcome (inl e) (snd (invoke put (snd a)))
           [EApi (get_notification_request bucket); EApi put]).
Proof.
  cbn zeta. rewrite configure_run. cbn zeta.
  repeat split.
  - intros e Ha. rewrite Ha. reflexivity.
  - intros cfg e Ha Hi. rewrite Ha, Hi. reflexivity.
  - intros cfg elems e Ha Hi Hk. rewrite Ha, Hi, Hk. reflexivity.
  - intros cfg elems kept e Ha Hi Hk Hp. rewrite Ha, Hi, Hk, Hp. reflexivity.
Qed.

End Configurator.

Lemma only_function_rules_written_witness :
  In (EApi (put_notification_request "b"
              [("LambdaFunctionConfigurations",
                PList [PDict (lambda_config arn_of_f None None)])]))
    (trace (configure_s3_notification "b" arn_of_f None None bucket_with_topic))
  /\
  exists conf rules,
    kwargs (put_notification_request "b"
              [("LambdaFunctionConfigurations",
                PList [PDict (lambda_config arn_of_f None None)])]) =
    [("Bucket", PStr "b"); ("NotificationConfiguration", PDict conf)] /\
    conf = [("LambdaFunctionConfigurations", PList rules)] /\
    dict_get "LambdaFunctionConfigurations" conf = Some (PList rules) /\
    forall k, k <> "LambdaFunctionConfigurations" -> dict_get k conf = None.
Proof.
  split; [ right; left; reflexivity | ].
  apply (only_function_rules_written "b" arn_of_f None None bucket_with_topic).
  - right; left; reflexivity.
  - reflexivity.
Defined.

Lemma second_run_replaces_rule_witness :
  exists kept,
    [rule_for "arn:aws:lambda:::function:g" "s3:ObjectRemoved:*";
     PDict (lambda_config arn_of_f None None)] =
    kept ++ [PDict (lambda_config arn_of_f None None)] /\
    trace (configure_s3_notification "b" arn_of_f (Some "in/") None
             (world (configure_s3_notification "b" arn_of_f None None
                       bucket_with_rules))) =
    [EApi (get_notification_request "b");
     EApi (put_notification_request "b"
             [("LambdaFunctionConfigurations",
               PList (kept ++
                      [PDict (lambda_config arn_of_f (Some "in/") None)]))])].
Proof.
  apply (second_run_replaces_rule "b" "arn:aws:lambda:::function:f"
           None None (Some "in/") None bucket_with_rules PNone PNone
           [rule_for "arn:aws:lambda:::function:g" "s3:ObjectRemoved:*";
            PDict (lambda_config arn_of_f None None)]
           [("LambdaFunctionConfigurations",
             PList [rule_for "arn:aws:lambda:::function:g" "s3:ObjectRemoved:*";
                    PDict (lambda_config arn_of_f None None)])]);
    reflexivity.
Defined.

Lemma configure_failures_witness :
  fst (invoke (get_notification_request "b") no_bucket)
  = inl (ClientError "NoSuchBucket") /\
  configure_s3_notification "b" arn_of_f None None no_bucket =
  Outcome (inl (ClientError "NoSuchBucket")) no_bucket
    [EApi (get_notification_request "b")].
Proof.
  split; [ reflexivity | ].
  exact (proj1 (configure_failures "b" arn_of_f None None no_bucket)
           (ClientError "NoSuchBucket") eq_refl).
Defined.

(** ** Further properties of the upserter and of [main] *)

Section Deployment.

Context {W : Type} `{Platform W}.

(** X5: the [env] of [main] holds [SNS_TOPIC_ARN] and [SLACK_WEBHOOK_URL],
    in this order, each exactly when its option is a non-empty [str] and
    with that value, and no other key. *)
Theorem main_env_entries (args : arguments) :
  main_env args =
  env_entry "SNS_TOPIC_ARN" (args_sns_topic_arn args) ++
  env_entry "SLACK_WEBHOOK_URL" (args_slack_webhook_url args) /\
  forall k, k <> "SNS_TOPIC_ARN" -> k <> "SLACK_WEBHOOK_URL" ->
    dict_get k (main_env args) = None.
Proof.
  assert (E : main_env args =
              env_entry "SNS_TOPIC_ARN" (args_sns_topic_arn args) ++
              env_entry "SLACK_WEBHOOK_URL" (args_slack_webhook_url args)).
  { unfold main_env.
    destruct (args_sns_topic_arn args) as [[ | a s] | ],
             (args_slack_webhook_url args) as [[ | b t] | ]; reflexivity. }
  split; [ exact E | ].
  intros k H1 H2. rewrite E.
  apply String.eqb_neq in H1. apply String.eqb_neq in H2.
  destruct (args_sns_topic_arn args) as [[ | a s] | ],
           (args_slack_webhook_url args) as [[ | b t] | ];
    cbn [env_entry app dict_get]; rewrite ?H1, ?H2; reflexivity.
Qed.

(** X6: the update path and the create path give a function the same
    settings: the [update_function_configuration] call of a run and the
    [create_function] call of a run with the same arguments carry the same
    name, handler, runtime, role, timeout, memory size and environment. *)
Theorem upsert_settings_agree (fn role : string) (zip zip' : list byte)
    (region region' : string) (env : dict) (w w' : W) (c c' : api_call)
    (k : string) :
  In (EApi c) (trace (upsert_lambda fn role zip region env w)) ->
  operation c = "update_function_configuration" ->
  In (EApi c') (trace (upsert_lambda fn role zip' region' env w')) ->
  operation c' = "create_function" ->
  In k setting_keys ->
  dict_get k (kwargs c) = dict_get k (kwargs c') /\
  dict_get k (kwargs c) <> None.
Proof.
  intros Hc Hop Hc' Hop' Hk.
  destruct (upsert_events _ _ _ _ _ _ _ Hc) as [E | [E | E]];
    injection E as ->; try discriminate Hop.
  destruct (upsert_events _ _ _ _ _ _ _ Hc') as [E | [E | E]];
    injection E as ->; try discriminate Hop'.
  cbn in Hk.
  repeat (destruct Hk as [<- | Hk]; [ split; [ reflexivity | discriminate ] | ]).
  contradiction.
Qed.

(** X7: a run of [main] that returns has packaged the file, deployed the
    function, granted the permission for the bucket, registered the trigger
    for the function reference the deployment returned, in this order, and
    printed the three summary lines; the exit status is 0. *)
Theorem main_success (args : arguments) (w : W) (v : pyval) :
  result (main args w) = inr v ->
  v = PNone /\
  exit_status (main args w) = 0%Z /\
  exists code_zip lambda_arn kept,
    zip_archive (args_file args) "lambda_function.py" w = inr code_zip /\
    result (upsert_lambda (args_function args) (args_role_arn args) code_zip
              (args_region args) (main_env args) w) = inr lambda_arn /\
    trace (main args w) =
    prelude args ++
    trace (upsert_lambda (args_function args) (args_role_arn args) code_zip
             (args_region args) (main_env args) w) ++
    [EApi (main_permission_request args);
     EApi (get_notification_request (args_bucket args));
     EApi (put_notification_request (args_bucket args)
             [("LambdaFunctionConfigurations",
               PList (kept ++
                      [PDict (lambda_config lambda_arn (args_prefix args)
                                (args_suffix args))]))])] ++
    summary args lambda_arn.
Proof.
  intros Hv.
  destruct (created args w) eqn:Hc.
  2:{ destruct (main_not_created args w Hc) as (name & t & E & _).
      rewrite E in Hv. discriminate Hv. }
  destruct (path_exists (args_file args) w) eqn:Hex;
    [ | rewrite (main_missing_run args w Hc Hex) in Hv; discriminate Hv ].
  unfold exit_status. rewrite (main_run args w Hc Hex) in *. cbn zeta in *.
  destruct (zip_archive (args_file args) "lambda_function.py" w)
    as [e | code_zip] eqn:Ez; [ discriminate Hv | ].
  destruct (result (upsert_lambda _ _ code_zip _ _ w))
    as [e | lambda_arn] eqn:E1; [ discriminate Hv | ].
  destruct (result (add_invoke_permission _ _ _ _)) as [e | v2] eqn:E2;
    [ discriminate Hv | ].
  destruct (result (configure_s3_notification _ _ _ _ _)) as [e | v3] eqn:E3;
    [ discriminate Hv | ].
  cbn [result trace] in *. injection Hv as <-.
  destruct (configure_returns _ _ _ _ _ _ E3)
    as (cfg & elems & kept & _ & _ & _ & Ht & _).
  split; [ reflexivity | split; [ reflexivity | ] ].
  exists code_zip, lambda_arn, kept.
  split; [ reflexivity | split; [ exact E1 | ] ].
  rewrite Ht, add_invoke_permission_trace. reflexivity.
Qed.

(** X8: [main] prints ["Done."] exactly when it returns: no run that raises
    prints it, in particular none that stops for a missing file or at a
    provider error. *)
Theorem done_iff_success (args : arguments) (w : W) :
  In (EPrint "stdout" [PStr "Done."]) (trace (main args w)) <->
  exists v, result (main args w) = inr v.
Proof.
  assert (Hu : forall fn role zip region env w0,
             ~ In (EPrint "stdout" [PStr "Done."])
                 (trace (upsert_lambda fn role zip region env w0))).
  { intros fn role zip region env w0 Hin.
    destruct (upsert_events _ _ _ _ _ _ _ Hin) as [E | [E | E]];
      discriminate E. }
  assert (Hc : forall b arn p s w0,
             ~ In (EPrint "stdout" [PStr "Done."])
                 (trace (configure_s3_notification b arn p s w0))).
  { intros b arn p s w0 Hin.
    destruct (configure_events _ _ _ _ _ _ Hin) as [E | (rules & E)];
      discriminate E. }
  assert (Hp : forall fn b sid w0,
             ~ In (EPrint "stdout" [PStr "Done."])
                 (trace (add_invoke_permission fn b sid w0))).
  { intros fn b sid w0 Hin. rewrite add_invoke_permission_trace in Hin.
    destruct Hin as [E | []]. discriminate E. }
  assert (Hl : ~ In (EPrint "stdout" [PStr "Done."]) (prelude args)).
  { unfold prelude. cbn.
    intros Hin.
    repeat (destruct Hin as [Hin | Hin]; [ discriminate Hin | ]). exact Hin. }
  destruct (created args w) eqn:Hcr.
  2:{ destruct (main_not_created args w Hcr) as (name & t & E & Ht).
      rewrite E. cbn [result trace].
      split; [ | intros [v Hv]; discriminate Hv ].
      intros Hin. destruct (Ht _ Hin) as [E' | [E' | E']]; discriminate E'. }
  destruct (path_exists (args_file args) w) eqn:Hex.
  - rewrite (main_run args w Hcr Hex). cbn zeta.
    destruct (zip_archive (args_file args) "lambda_function.py" w)
      as [e | code_zip].
    { cbn [result trace]. split; [ intros Hin; contradiction | ].
      intros [v Hv]. discriminate Hv. }
    destruct (result (upsert_lambda _ _ code_zip _ _ w))
      as [e | lambda_arn] eqn:E1.
    { cbn [result trace]. split; [ | intros [v Hv]; discriminate Hv ].
      intros Hin. apply in_app_or in Hin. destruct Hin as [Hin | Hin];
        [ contradiction | exfalso; exact (Hu _ _ _ _ _ _ Hin) ]. }
    destruct (result (add_invoke_permission _ _ _ _)) as [e | v2] eqn:E2.
    { cbn [result trace]. split; [ | intros [v Hv]; discriminate Hv ].
      intros Hin. apply in_app_or in Hin. destruct Hin as [Hin | Hin];
        [ contradiction | ].
      apply in_app_or in Hin. destruct Hin as [Hin | Hin]; exfalso;
        [ exact (Hu _ _ _ _ _ _ Hin) | exact (Hp _ _ _ _ Hin) ]. }
    destruct (result (configure_s3_notification _ _ _ _ _)) as [e | v3] eqn:E3.
    { cbn [result trace]. split; [ | intros [v Hv]; discriminate Hv ].
      intros Hin. apply in_app_or in Hin. destruct Hin as [Hin | Hin];
        [ contradiction | ].
      apply in_app_or in Hin. destruct Hin as [Hin | Hin];
        [ exfalso; exact (Hu _ _ _ _ _ _ Hin) | ].
      apply in_app_or in Hin. destruct Hin as [Hin | Hin]; exfalso;
        [ exact (Hp _ _ _ _ Hin) | exact (Hc _ _ _ _ _ Hin) ]. }
    cbn [result trace]. split; [ intros _; exists PNone; reflexivity | ].
    intros _. apply in_or_app. right. apply in_or_app. right.
    apply in_or_app. right. apply in_or_app. right. left. reflexivity.
  - rewrite (main_missing_run args w Hcr Hex). cbn [result trace].
    split; [ | intros [v Hv]; discriminate Hv ].
    intros Hin. cbn in Hin.
    repeat (destruct Hin as [Hin | Hin]; [ discriminate Hin | ]).
    contradiction.
Qed.

End Deployment.

(** ** The order of the steps of [main] *)

Section Order.

Context {W : Type} `{Platform W}.

Lemma permission_returns_none (fn bucket_arn sid : string) (w : W) (v : pyval) :
  result (add_invoke_permission fn bucket_arn sid w) = inr v -> v = PNone.
Proof.
  rewrite add_invoke_permission_run. cbn [result].
  destruct (fst (invoke _ w)) as [e | resp]; [ | congruence ].
  destruct e as [c | | | | | ]; try discriminate.
  destruct (String.eqb c "ResourceConflictException"); congruence.
Qed.

(** X9: [main] calls the [s3] client only for the bucket of the command
    line, and only after the packaging, the deployment and the permission
    grant for that bucket have returned. *)
Theorem trigger_comes_last (args : arguments) (w : W) (c : api_call) :
  In (EApi c) (trace (main args w)) ->
  service c = "s3" ->
  dict_get "Bucket" (kwargs c) = Some (PStr (args_bucket args)) /\
  exists code_zip lambda_arn,
    zip_archive (args_file args) "lambda_function.py" w = inr code_zip /\
    result (upsert_lambda (args_function args) (args_role_arn args) code_zip
              (args_region args) (main_env args) w) = inr lambda_arn /\
    result (add_invoke_permission (args_function args)
              ("arn:aws:s3:::" ++ args_bucket args) "AllowS3Invoke"
              (world (upsert_lambda (args_function args) (args_role_arn args)
                        code_zip (args_region args) (main_env args) w)))
    = inr PNone /\
    In (EApi (main_permission_request args)) (trace (main args w)).
Proof.
  intros Hin Hs.
  assert (Hl : ~ In (EApi c) (prelude args)).
  { unfold prelude. cbn. intros Hp.
    repeat (destruct Hp as [Hp | Hp]; [ discriminate Hp | ]). exact Hp. }
  assert (Hu : forall fn role zip region env w0,
             ~ In (EApi c) (trace (upsert_lambda fn role zip region env w0))).
  { intros fn role zip region env w0 Hp.
    destruct (upsert_events _ _ _ _ _ _ _ Hp) as [E | [E | E]];
      injection E as ->; discriminate Hs. }
  assert (Hp : forall fn b sid w0,
             ~ In (EApi c) (trace (add_invoke_permission fn b sid w0))).
  { intros fn b sid w0 Hp. rewrite add_invoke_permission_trace in Hp.
    destruct Hp as [E | []]. injection E as <-. discriminate Hs. }
  assert (Hs3 : forall arn w0,
             In (EApi c)
               (trace (configure_s3_notification (args_bucket args) arn
                         (args_prefix args) (args_suffix args) w0)) ->
             dict_get "Bucket" (kwargs c) = Some (PStr (args_bucket args))).
  { intros arn w0 Hc.
    destruct (configure_events _ _ _ _ _ _ Hc) as [E | (rules & E)];
      injection E as ->; reflexivity. }
  assert (Hy : forall t, In (EApi c) (summary args t) -> False).
  { intros t Hc. unfold summary in Hc. cbn in Hc.
    repeat (destruct Hc as [Hc | Hc]; [ discriminate Hc | ]). exact Hc. }
  destruct (created args w) eqn:Hcr.
  2:{ destruct (main_not_created args w Hcr) as (name & t & E & Ht).
      rewrite E in Hin. cbn [trace] in Hin.
      destruct (Ht _ Hin) as [E' | [E' | E']]; discriminate E'. }
  destruct (path_exists (args_file args) w) eqn:Hex.
  2:{ rewrite (main_missing_run args w Hcr Hex) in Hin. cbn in Hin.
      repeat (destruct Hin as [Hin | Hin]; [ discriminate Hin | ]).
      contradiction. }
  rewrite (main_run args w Hcr Hex) in *. cbn zeta in *.
  destruct (zip_archive (args_file args) "lambda_function.py" w)
    as [e | code_zip] eqn:Ez.
  { cbn [trace] in Hin. contradiction. }
  destruct (result (upsert_lambda _ _ code_zip _ _ w))
    as [e | lambda_arn] eqn:E1.
  { cbn [trace] in Hin. apply in_app_or in Hin.
    destruct Hin as [Hin | Hin]; [ contradiction | ].
    exfalso. exact (Hu _ _ _ _ _ _ Hin). }
  destruct (result (add_invoke_permission _ _ _ _)) as [e | v2] eqn:E2.
  { cbn [trace] in Hin. apply in_app_or in Hin.
    destruct Hin as [Hin | Hin]; [ contradiction | ].
    apply in_app_or in Hin. destruct Hin as [Hin | Hin]; exfalso;
      [ exact (Hu _ _ _ _ _ _ Hin) | exact (Hp _ _ _ _ Hin) ]. }
  assert (Hgrant :
            In (EApi (main_permission_request args))
              (trace (add_invoke_permission (args_function args)
                        ("arn:aws:s3:::" ++ args_bucket args) "AllowS3Invoke"
                        (world (upsert_lambda (args_function args)
                                  (args_role_arn args) code_zip
                                  (args_region args) (main_env args) w))))).
  { rewrite add_invoke_permission_trace. left. reflexivity. }
  pose proof (permission_returns_none _ _ _ _ _ E2) as ->.
  assert (Hbucket : dict_get "Bucket" (kwargs c)
                    = Some (PStr (args_bucket args))).
  { destruct (result (configure_s3_notification _ _ _ _ _)) as [e | v3];
      cbn [trace] in Hin;
      apply in_app_or in Hin; (destruct Hin as [Hin | Hin];
                               [ contradiction | ]);
      apply in_app_or in Hin;
      (destruct Hin as [Hin | Hin]; [ exfalso; exact (Hu _ _ _ _ _ _ Hin) | ]);
      apply in_app_or in Hin;
      (destruct Hin as [Hin | Hin]; [ exfalso; exact (Hp _ _ _ _ Hin) | ]).
    - exact (Hs3 _ _ Hin).
    - apply in_app_or in Hin. destruct Hin as [Hin | Hin];
        [ exact (Hs3 _ _ Hin) | exfalso; exact (Hy _ Hin) ]. }
  split; [ exact Hbucket | ].
  exists code_zip, lambda_arn.
  split; [ reflexivity | split; [ exact E1 | split; [ exact E2 | ] ] ].
  destruct (result (configure_s3_notification _ _ _ _ _)) as [e | v3];
    cbn [trace]; apply in_or_app; right; apply in_or_app; right;
    apply in_or_app; left; exact Hgrant.
Qed.

(** X10: when a step of [main] raises, [main] raises the same and goes no
    further: a failed construction of the session or of a client comes
    before the packaging and any provider call, a failed packaging leaves
    the provider untouched, a failed deployment grants no permission, and a
    failed grant registers no trigger. *)
Theorem first_failure_stops_main (args : arguments) (w : W) :
  (created args w = false ->
   exists name t,
     main args w = Outcome (inl (OtherError name)) w t /\
     forall ev, In ev t ->
       ev = ESession (args_region args) \/ ev = EClient "s3" \/
       ev = EClient "lambda") /\
  (created args w = true ->
   path_exists (args_file args) w = true ->
   (forall e,
      zip_archive (args_file args) "lambda_function.py" w = inl e ->
      main args w = Outcome (inl e) w (prelude args)) /\
   (forall code_zip e,
      zip_archive (args_file args) "lambda_function.py" w = inr code_zip ->
      let o1 := upsert_lambda (args_function args) (args_role_arn args)
                  code_zip (args_region args) (main_env args) w in
      result o1 = inl e ->
      main args w = Outcome (inl e) (world o1) (prelude args ++ trace o1)) /\
   (forall code_zip lambda_arn e,
      zip_archive (args_file args) "lambda_function.py" w = inr code_zip ->
      let o1 := upsert_lambda (args_function args) (args_role_arn args)
                  code_zip (args_region args) (main_env args) w in
      result o1 = inr lambda_arn ->
      let o2 := add_invoke_permission (args_function args)
                  ("arn:aws:s3:::" ++ args_bucket args) "AllowS3Invoke"
                  (world o1) in
      result o2 = inl e ->
      main args w =
      Outcome (inl e) (world o2)
        (prelude args ++ trace o1 ++ [EApi (main_permission_request args)]))).
Proof.
  split; [ apply main_not_created | ].
  intros Hc Hex. rewrite (main_run args w Hc Hex). cbn zeta.
  repeat split.
  - intros e Ez. rewrite Ez. reflexivity.
  - intros code_zip e Ez E1. rewrite Ez, E1. reflexivity.
  - intros code_zip lambda_arn e Ez E1 E2.
    rewrite Ez, E1, E2, add_invoke_permission_trace. reflexivity.
Qed.

End Order.

Lemma upsert_settings_agree_witness :
  dict_get "Role"
    (kwargs (update_function_configuration_request "f" "role" [])) =
  dict_get "Role" (kwargs (create_function_request "f" "role" [x50] [])) /\
  dict_get "Role"
    (kwargs (update_function_configuration_request "f" "role" [])) <> None.
Proof.
  apply (upsert_settings_agree "f" "role" [x50] [x50] "us-east-1" "us-east-1"
           [] vanishing_function vanishing_function
           (update_function_configuration_request "f" "role" [])
           (create_function_request "f" "role" [x50] []) "Role").
  - right; left; reflexivity.
  - reflexivity.
  - right; right; left; reflexivity.
  - reflexivity.
  - right; right; right; left; reflexivity.
Defined.

Lemma main_success_witness :
  result (main full_arguments fresh) = inr PNone /\
  exit_status (main full_arguments fresh) = 0%Z /\
  Cloud.functions (world (main full_arguments fresh)) = ["f"] /\
  Cloud.statements (world (main full_arguments fresh))
  = [("f", "AllowS3Invoke")].
Proof.
  split; [ reflexivity | ].
  split; [ | split; reflexivity ].
  exact (proj1 (proj2 (main_success full_arguments fresh PNone eq_refl))).
Defined.

Lemma trigger_comes_last_witness :
  In (EApi (get_notification_request "b")) (trace (main full_arguments fresh))
  /\
  dict_get "Bucket" (kwargs (get_notification_request "b")) = Some (PStr "b").
Proof.
  assert (Hin : In (EApi (get_notification_request "b"))
                  (trace (main full_arguments fresh))).
  { vm_compute. tauto. }
  split; [ exact Hin | ].
  exact (proj1 (trigger_comes_last full_arguments fresh
                  (get_notification_request "b") Hin eq_refl)).
Defined.

Lemma first_failure_stops_main_witness :
  (created misspelt_region ready = false /\
   exists name t,
     main misspelt_region ready = Outcome (inl (OtherError name)) ready t /\
     forall ev, In ev t ->
       ev = ESession "us east 1" \/ ev = EClient "s3" \/ ev = EClient "lambda")
  /\
  (created plain_arguments locked = true /\
   path_exists (args_file plain_arguments) locked = true /\
   main plain_arguments locked =
   Outcome (inl (OtherError "PermissionError")) locked
     (prelude plain_arguments)) /\
  (created plain_arguments denied = true /\
   path_exists (args_file plain_arguments) denied = true /\
   main plain_arguments denied =
   Outcome (inl (ClientError "AccessDeniedException"))
     (Scripted.World [] ["lambda_function.py"])
     (prelude plain_arguments ++
      [EApi (update_function_code_request "f" [x50; x4b])])).
Proof.
  split; [ split; [ reflexivity | ] | split ].
  - exact (proj1 (first_failure_stops_main misspelt_region ready) eq_refl).
  - split; [ reflexivity | split; [ reflexivity | ] ].
    exact (proj1 (proj2 (first_failure_stops_main plain_arguments locked)
                    eq_refl eq_refl)
             (OtherError "PermissionError") eq_refl).
  - split; [ reflexivity | split; [ reflexivity | ] ].
    exact (proj1 (proj2 (proj2 (first_failure_stops_main plain_arguments denied)
                           eq_refl eq_refl))
             [x50; x4b] (ClientError "AccessDeniedException") eq_refl eq_refl).
Defined.

(** ** Edge cases of the three operations *)

Section Edges.

Context {W : Type} `{Platform W}.

(** X11: whatever the provider answers, [add_invoke_permission] makes one
    call and no more: [add_permission] for the action
    ["lambda:InvokeFunction"], the principal ["s3.amazonaws.com"] and the
    given source, and it leaves the world as that call left it. *)
Theorem permission_is_one_call (fn bucket_arn sid : string) (w : W) :
  let c := ApiCall "lambda" "add_permission"
             [("FunctionName", PStr fn);
              ("StatementId", PStr sid);
              ("Action", PStr "lambda:InvokeFunction");
              ("Principal", PStr "s3.amazonaws.com");
              ("SourceArn", PStr bucket_arn)] in
  trace (add_invoke_permission fn bucket_arn sid w) = [EApi c] /\
  world (add_invoke_permission fn bucket_arn sid w) = snd (invoke c w).
Proof.
  cbn zeta. rewrite add_invoke_permission_run. split; reflexivity.
Qed.

(** X12: a response without the key [FunctionArn] makes [upsert_lambda]
    raise [KeyError]: on the update path after both update calls, with no
    fallback to [create_function]; on the create path after the creation. *)
Theorem missing_function_arn (fn role : string) (zip : list byte)
    (region : string) (env : dict) (w : W) :
  let code := update_function_code_request fn zip in
  let conf := update_function_configuration_request fn role env in
  let create := create_function_request fn role zip env in
  let o := upsert_lambda fn role zip region env w in
  (forall resp resp' w1 w2,
     invoke code w = (inr resp, w1) ->
     invoke conf w1 = (inr resp', w2) ->
     dict_get "FunctionArn" resp = None ->
     o = Outcome (inl (KeyError "FunctionArn")) w2 [EApi code; EApi conf]) /\
  (forall resp w1 w2,
     invoke code w = (inl not_found, w1) ->
     invoke create w1 = (inr resp, w2) ->
     dict_get "FunctionArn" resp = None ->
     o = Outcome (inl (KeyError "FunctionArn")) w2 [EApi code; EApi create]).
Proof.
  cbn zeta. split.
  - intros resp resp' w1 w2 H1 H2 Hk.
    rewrite (upsert_updates _ _ _ _ _ _ _ _ _ _ H1 H2).
    unfold py_getitem. rewrite Hk. reflexivity.
  - intros resp w1 w2 H1 H2 Hk.
    rewrite (upsert_code_raises _ _ _ _ _ _ _ _ H1). cbn.
    rewrite H2. cbn. unfold py_getitem. rewrite Hk. reflexivity.
Qed.

(** X13: a configuration read without the key
    [LambdaFunctionConfigurations] counts as one without function rules:
    the run writes the new rule alone. *)
Theorem first_rule_of_a_bucket (bucket : string) (lambda_arn : pyval)
    (prefix suffix : option string) (w w1 : W) (cfg : dict) :
  invoke (get_notification_request bucket) w = (inr cfg, w1) ->
  dict_get "LambdaFunctionConfigurations" cfg = None ->
  let put := put_notification_request bucket
               [("LambdaFunctionConfigurations",
                 PList [PDict (lambda_config lambda_arn prefix suffix)])] in
  configure_s3_notification bucket lambda_arn prefix suffix w =
  Outcome
    match fst (invoke put w1) with
    | inl e => inl e
    | inr _ => inr PNone
    end
    (snd (invoke put w1))
    [EApi (get_notification_request bucket); EApi put].
Proof.
  intros Hg Hk. cbn zeta. rewrite configure_run. cbn zeta.
  rewrite Hg. cbn [fst snd]. unfold existing_rules. rewrite Hk.
  reflexivity.
Qed.

End Edges.

Lemma missing_function_arn_witness :
  invoke (update_function_code_request "f" [x50]) silent_update
  = (inr [], Scripted.World [inr arn_f] []) /\
  upsert_lambda "f" "role" [x50] "us-east-1" [] silent_update =
  Outcome (inl (KeyError "FunctionArn")) (Scripted.World [] [])
    [EApi (update_function_code_request "f" [x50]);
     EApi (update_function_configuration_request "f" "role" [])].
Proof.
  split; [ reflexivity | ].
  exact (proj1 (missing_function_arn "f" "role" [x50] "us-east-1" []
                  silent_update)
           [] arn_f (Scripted.World [inr arn_f] []) (Scripted.World [] [])
           eq_refl eq_refl eq_refl).
Defined.

Lemma first_rule_of_a_bucket_witness :
  invoke (get_notification_request "b") deployed = (inr [], deployed) /\
  trace (configure_s3_notification "b" arn_of_f (Some "in/") None deployed) =
  [EApi (get_notification_request "b");
   EApi (put_notification_request "b"
           [("LambdaFunctionConfigurations",
             PList [PDict (lambda_config arn_of_f (Some "in/") None)])])].
Proof.
  split; [ reflexivity | ].
  pose proof (first_rule_of_a_bucket "b" arn_of_f (Some "in/") None deployed
                deployed []) as T.
  cbv zeta in T. rewrite T; reflexivity.
Defined.
